(** * Credit portfolio dashboard: metrics and strategy simulation

    A shallow embedding of the computations of [app/dashboard.py]:
    [calculate_portfolio_metrics], the score banding of
    [create_risk_analysis_charts], the policy simulation performed by
    [create_strategy_simulation] when its button is pressed, and the
    high-risk filter of [main]; further the data of the overview and
    delinquency charts, the trend insights of [main], and the data-quality
    report of [app/db_setup.py] over an abstract database.

    Conventions of the embedding.
    - A float64 is an exact rational extended with the IEEE special
      values NaN and the two infinities ([np_float]); rounding and signed
      zeros are not modelled.
    - A numeric cell of a pandas column is [option Q]; [None] is NaN.
    - The sum of a column ([series_sum]) is exact. The wrap-around of the
      sum of an int64 column is modelled apart, by [int64_sum].
    - A [DataFrame] carries the list of its column names and its rows.
      The seven mandatory columns of the portfolio CSV are read without a
      check; the optional ones ([income_band], [region], [risk_segment],
      [risk_score]) exist iff their name is in [columns].
    - Python exceptions are the [Raise] results of [result].
    - DataFrame objects that are copied and assigned to live in a [heap],
      addressed by location. *)

From Stdlib Require Import ZArith QArith Bool Lia Lqa.
From Stdlib Require OrderedTypeEx.
From stdpp Require Import base option gmap strings list sorting.

Local Open Scope string_scope.

(** ** Exceptions *)

Inductive pyerr :=
| KeyError (key : string)
| ZeroDivisionError
| InvalidReference.

Inductive result (A : Type) :=
| Ok (a : A)
| Raise (e : pyerr).
Arguments Ok {A} a.
Arguments Raise {A} e.

#[global] Instance result_ret : MRet result := fun _ a => Ok a.
#[global] Instance result_bind : MBind result := fun _ _ f m =>
  match m with
  | Ok a => f a
  | Raise e => Raise e
  end.

(** ** Numbers *)

Inductive np_float :=
| Fin (q : Q)
| NaN
| PInf
| NInf.

Inductive pyval :=
| VInt (z : Z)
| VFloat (f : np_float).

Definition to_float (v : pyval) : np_float :=
  match v with
  | VInt z => Fin (inject_Z z)
  | VFloat f => f
  end.

Definition Qlt_bool (x y : Q) : bool := negb (Qle_bool y x).

Definition np_neg (a : np_float) : np_float :=
  match a with
  | Fin q => Fin (- q)
  | NaN => NaN
  | PInf => NInf
  | NInf => PInf
  end.

Definition np_add (a b : np_float) : np_float :=
  match a, b with
  | NaN, _ | _, NaN => NaN
  | Fin x, Fin y => Fin (x + y)
  | PInf, NInf | NInf, PInf => NaN
  | PInf, _ | _, PInf => PInf
  | NInf, _ | _, NInf => NInf
  end.

Definition np_sub (a b : np_float) : np_float := np_add a (np_neg b).

(** The infinity with the sign of [q]; NaN for zero. *)
Definition signed_inf (q : Q) : np_float :=
  if Qlt_bool 0 q then PInf else if Qlt_bool q 0 then NInf else NaN.

Definition np_mul (a b : np_float) : np_float :=
  match a, b with
  | NaN, _ | _, NaN => NaN
  | Fin x, Fin y => Fin (x * y)
  | Fin x, PInf | PInf, Fin x => signed_inf x
  | Fin x, NInf | NInf, Fin x => signed_inf (- x)
  | PInf, PInf | NInf, NInf => PInf
  | PInf, NInf | NInf, PInf => NaN
  end.

(** numpy true division: a zero divisor gives an infinity or NaN (with a
    RuntimeWarning, silenced by [warnings.filterwarnings('ignore')]), it
    never raises. *)
Definition np_truediv (a b : np_float) : np_float :=
  match a, b with
  | NaN, _ | _, NaN => NaN
  | Fin x, Fin y => if Qeq_bool y 0 then signed_inf x else Fin (x / y)
  | Fin _, PInf | Fin _, NInf => Fin 0
  | PInf, Fin y => if Qlt_bool y 0 then NInf else PInf
  | NInf, Fin y => if Qlt_bool y 0 then PInf else NInf
  | PInf, PInf | PInf, NInf | NInf, PInf | NInf, NInf => NaN
  end.

(** Python's [int / int]: raises on a zero divisor. *)
Definition py_truediv (a b : Z) : result np_float :=
  if (b =? 0)%Z then Raise ZeroDivisionError
  else Ok (Fin (inject_Z a / inject_Z b)).

(** Python's [dict[key]]. *)
Definition getitem (d : gmap string pyval) (key : string) : result pyval :=
  match d !! key with
  | Some v => Ok v
  | None => Raise (KeyError key)
  end.

(** ** Tables *)

Record Row := mkRow {
  customer_id : Z;
  acceptance_decision : string;
  application_score : option Q;
  credit_limit : option Q;
  balance : option Q;
  utilization_rate : option Q;
  delinquency_status : option Q;
  income_band : option string;
  region : option string;
  risk_segment : option string;
  risk_score : option Q
}.

Record DataFrame := mkDF {
  columns : list string;
  rows : list Row
}.

(** [len(df)] *)
Definition len (df : DataFrame) : Z := Z.of_nat (length (rows df)).

(** [df.empty]: some axis has length zero. *)
Definition empty (df : DataFrame) : bool :=
  match rows df, columns df with
  | [], _ | _, [] => true
  | _, _ => false
  end.

(** ['c' in df.columns] *)
Definition has_column (c : string) (df : DataFrame) : bool :=
  bool_decide (c ∈ columns df).

(** [df[mask]] for a mask computed row by row. *)
Definition select (p : Row → bool) (df : DataFrame) : DataFrame :=
  mkDF (columns df) (List.filter p (rows df)).

Definition is_approved (r : Row) : bool :=
  String.eqb (acceptance_decision r) "Approved".

(** [df[df['acceptance_decision'] == 'Approved']] *)
Definition approved (df : DataFrame) : DataFrame := select is_approved df.

(** ** Series *)

(** The values of a numeric series that are not NaN. *)
Definition notna (s : list (option Q)) : list Q := omap id s.

Definition Qsum (l : list Q) : Q := foldr Qplus 0%Q l.

(** [Series.sum()], which skips NaN; the empty sum is 0. The sum is the
    exact one: it neither wraps around nor rounds. *)
Definition series_sum (s : list (option Q)) : np_float := Fin (Qsum (notna s)).

(** [Series.mean()], which skips NaN; NaN when nothing is left. *)
Definition series_mean (s : list (option Q)) : np_float :=
  match notna s with
  | [] => NaN
  | vs => Fin (Qsum vs / inject_Z (Z.of_nat (length vs)))
  end.

(** [series > 0]: a comparison with NaN is False. *)
Definition gt0 (c : option Q) : bool :=
  match c with
  | Some q => Qlt_bool 0 q
  | None => false
  end.

Definition count_true (bs : list bool) : Z :=
  Z.of_nat (length (List.filter id bs)).

(** [mean()] of a boolean series. *)
Definition bool_mean (bs : list bool) : np_float :=
  match bs with
  | [] => NaN
  | _ => Fin (inject_Z (count_true bs) / inject_Z (Z.of_nat (length bs)))
  end.

(** [(x > 0).mean() * 100] *)
Definition pct_positive (s : list (option Q)) : np_float :=
  np_mul (bool_mean (gt0 <$> s)) (Fin 100).

(** ** Portfolio metrics *)

Definition is_high_risk (r : Row) : bool :=
  match risk_segment r with
  | Some s => String.eqb s "High Risk"
  | None => false
  end.

Definition calculate_portfolio_metrics (df : DataFrame)
  : result (gmap string pyval) :=
  if empty df then Ok ∅
  else
    let approved_df := approved df in
    approval_rate ←
      (if (0 <? len df)%Z
       then f ← py_truediv (len approved_df) (len df);
            mret (VFloat (np_mul f (Fin 100)))
       else mret (VInt 0));
    mret (list_to_map [
      ("total_customers", VInt (len df));
      ("approved_customers", VInt (len approved_df));
      ("approval_rate", approval_rate);
      ("portfolio_balance", VFloat (series_sum (balance <$> rows approved_df)));
      ("total_limits", VFloat (series_sum (credit_limit <$> rows approved_df)));
      ("avg_utilization",
        VFloat (series_mean (utilization_rate <$> rows approved_df)));
      ("avg_credit_score",
        VFloat (series_mean (application_score <$> rows approved_df)));
      ("delinquency_rate",
        VFloat (pct_positive (delinquency_status <$> rows approved_df)));
      ("delinquent_customers",
        VInt (count_true (gt0 <$> (delinquency_status <$> rows approved_df))));
      ("high_risk_customers",
        if has_column "risk_segment" approved_df
        then VInt (len (select is_high_risk approved_df))
        else VInt 0)
    ]).

(** ** Risk by credit score band *)

Definition score_bins : list Q := [0; 500; 600; 650; 700; 750; 900]%Q.

Definition score_labels : list string :=
  ["<500"; "500-599"; "600-649"; "650-699"; "700-749"; "750+"].

(** [pd.cut(x, bins, labels)] with its defaults [right=True] and
    [include_lowest=False]: bin [i] is the interval
    [(bins[i], bins[i+1]]]; a value in no bin gets NaN. *)
Fixpoint cut_value (x : Q) (bins : list Q) (labels : list string)
  : option string :=
  match bins, labels with
  | lo :: (hi :: _) as rest, lab :: labs =>
      if Qlt_bool lo x && Qle_bool x hi then Some lab
      else cut_value x rest labs
  | _, _ => None
  end.

Definition cut (c : option Q) (bins : list Q) (labels : list string)
  : option string :=
  x ← c; cut_value x bins labels.

(** The [score_band] column assigned to [approved_df]. *)
Definition score_band (r : Row) : option string :=
  cut (application_score r) score_bins score_labels.

Definition in_band (lab : string) (r : Row) : bool :=
  bool_decide (score_band r = Some lab).

(** [approved_df.groupby('score_band', observed=True).agg(...)
    .reset_index()]: one line per band that has at least one row, in the
    order of the categories; rows without a band are dropped. *)
Definition risk_by_score (df : DataFrame) : list (string * Z * np_float) :=
  let approved_df := approved df in
  omap (λ lab,
          let group := select (in_band lab) approved_df in
          match rows group with
          | [] => None
          | _ => Some (lab, len group,
                       pct_positive (delinquency_status <$> rows group))
          end)
       score_labels.

(** The [customers] entry of a band; [None] when the band has no line. *)
Definition customers (lab : string) (tbl : list (string * Z * np_float))
  : option Z :=
  (λ e, snd (fst e)) <$> List.find (λ e, String.eqb (fst (fst e)) lab) tbl.

(** ** High-risk customers *)

Definition ge_cell (c : option Q) (x : Q) : bool :=
  match c with
  | Some q => Qle_bool x q
  | None => false
  end.

Definition le_cell (c : option Q) (x : Q) : bool :=
  match c with
  | Some q => Qle_bool q x
  | None => false
  end.

(** Order of two cells under [ascending=False] with the default
    [na_position='last']: [Lt] when the first sorts before the second. *)
Definition desc_cmp (a b : option Q) : comparison :=
  match a, b with
  | Some x, Some y => (y ?= x)%Q
  | Some _, None => Lt
  | None, Some _ => Gt
  | None, None => Eq
  end.

Fixpoint lex_cmp (by_ : list (Row → option Q)) (r1 r2 : Row) : comparison :=
  match by_ with
  | [] => Eq
  | k :: ks =>
      match desc_cmp (k r1) (k r2) with
      | Eq => lex_cmp ks r1 r2
      | c => c
      end
  end.

Definition precedes (by_ : list (Row → option Q)) (r1 r2 : Row) : bool :=
  match lex_cmp by_ r1 r2 with
  | Gt => false
  | _ => true
  end.

Fixpoint insert_row (by_ : list (Row → option Q)) (r : Row) (l : list Row)
  : list Row :=
  match l with
  | [] => [r]
  | r' :: l' =>
      if precedes by_ r r' then r :: l else r' :: insert_row by_ r l'
  end.

(** [df.sort_values(by, ascending=False)], as a stable sort: rows with
    equal keys keep their relative order. pandas keeps it when sorting by
    several keys and leaves it open for a single key. *)
Definition sort_values (by_ : list (Row → option Q)) (df : DataFrame)
  : DataFrame :=
  mkDF (columns df) (foldr (insert_row by_) [] (rows df)).

Definition high_risk_mask (min_balance max_score min_utilization : Q)
  (r : Row) : bool :=
  ge_cell (balance r) min_balance
  && le_cell (application_score r) max_score
  && ge_cell (utilization_rate r) min_utilization.

(** The [high_risk_df] of the "High-Risk Customers" page of [main]. *)
Definition high_risk_df (df : DataFrame)
  (min_balance max_score min_utilization : Q) : DataFrame :=
  let approved_df := approved df in
  let high_risk_df :=
    select (high_risk_mask min_balance max_score min_utilization) approved_df in
  if has_column "risk_score" high_risk_df
  then sort_values [risk_score] high_risk_df
  else sort_values [delinquency_status; utilization_rate] high_risk_df.

(** ** The store of DataFrame objects *)

Abbreviation loc := nat (only parsing).
Abbreviation heap := (gmap nat DataFrame) (only parsing).

(** Computations that read and write the store and may raise. *)
Definition M (A : Type) : Type := heap → result A * heap.

#[global] Instance M_ret : MRet M := λ _ a h, (Ok a, h).
#[global] Instance M_bind : MBind M := λ _ _ f m h,
  match m h with
  | (Ok a, h') => f a h'
  | (Raise e, h') => (Raise e, h')
  end.

Definition lift {A} (r : result A) : M A := λ h, (r, h).

Definition deref (l : loc) : M DataFrame := λ h,
  match h !! l with
  | Some t => (Ok t, h)
  | None => (Raise InvalidReference, h)
  end.

Definition store (l : loc) (t : DataFrame) : M unit := λ h,
  (Ok tt, <[l := t]> h).

(** A new object, at a location not in use. *)
Definition alloc (t : DataFrame) : M loc := λ h,
  let l := fresh (dom h) in (Ok l, <[l := t]> h).

(** [df.copy()]: a new object with the same content. *)
Definition df_copy (l : loc) : M loc :=
  t ← deref l; alloc t.

(** [df['application_score']] *)
Definition getitem_application_score (l : loc) : M (list (option Q)) :=
  t ← deref l; mret (application_score <$> rows t).

(** [df['income_band']]: a KeyError when the table has no such column. *)
Definition getitem_income_band (l : loc) : M (list (option string)) :=
  t ← deref l;
  if has_column "income_band" t then mret (income_band <$> rows t)
  else lift (Raise (KeyError "income_band")).

Definition set_acceptance_decision (v : string) (r : Row) : Row :=
  mkRow (customer_id r) v (application_score r) (credit_limit r) (balance r)
        (utilization_rate r) (delinquency_status r) (income_band r) (region r)
        (risk_segment r) (risk_score r).

(** [df.loc[mask, 'acceptance_decision'] = v], in place. *)
Definition loc_setitem_acceptance_decision (l : loc) (mask : list bool)
  (v : string) : M unit :=
  t ← deref l;
  store l (mkDF (columns t)
             (zip_with (λ r (b : bool), if b then set_acceptance_decision v r else r)
                       (rows t) mask)).

(** ** Strategy simulation *)

(** [series.isin(values)]: NaN is in no list of labels. *)
Definition isin (values : list string) (c : option string) : bool :=
  match c with
  | Some s => bool_decide (s ∈ values)
  | None => false
  end.

Record Simulation := mkSimulation {
  baseline_metrics : gmap string pyval;
  strategy_metrics : gmap string pyval;
  approval_change : np_float;
  balance_change : np_float;
  delinq_change : np_float;
  score_change : np_float;
  comparison_current : list np_float;
  comparison_strategy : list np_float
}.

(** [a - b] on two metric values. *)
Definition change (a b : pyval) : np_float := np_sub (to_float a) (to_float b).

(** [(a - b) / b * 100] on two numpy sums. *)
Definition pct_change (a b : pyval) : np_float :=
  np_mul (np_truediv (np_sub (to_float a) (to_float b)) (to_float b)) (Fin 100).

(** [v / 1e6] *)
Definition in_millions (v : pyval) : np_float :=
  np_truediv (to_float v) (Fin 1000000).

(** The body of [create_strategy_simulation] once the button is pressed,
    on the table [df] that [load_portfolio_data()] returned and with the
    values of the three widgets. Nothing is shown ([None]) for an empty
    table. *)
Definition create_strategy_simulation (df : loc) (min_score : Z)
  (limit_multiplier : Q) (income_targets : list string)
  : M (option Simulation) :=
  t ← deref df;
  if empty t then mret None
  else
    baseline ← lift (calculate_portfolio_metrics t);
    strategy_df ← df_copy df;
    scores ← getitem_application_score strategy_df;
    bands ← getitem_income_band strategy_df;
    let eligible_mask :=
      zip_with andb ((λ s, ge_cell s (inject_Z min_score)) <$> scores)
                    (isin income_targets <$> bands) in
    _ ← loc_setitem_acceptance_decision strategy_df (negb <$> eligible_mask)
          "Declined";
    t' ← deref strategy_df;
    strategy ← lift (calculate_portfolio_metrics t');
    s_rate ← lift (getitem strategy "approval_rate");
    b_rate ← lift (getitem baseline "approval_rate");
    s_bal ← lift (getitem strategy "portfolio_balance");
    b_bal ← lift (getitem baseline "portfolio_balance");
    s_delinq ← lift (getitem strategy "delinquency_rate");
    b_delinq ← lift (getitem baseline "delinquency_rate");
    s_score ← lift (getitem strategy "avg_credit_score");
    b_score ← lift (getitem baseline "avg_credit_score");
    b_appr ← lift (getitem baseline "approved_customers");
    s_appr ← lift (getitem strategy "approved_customers");
    mret (Some {|
      baseline_metrics := baseline;
      strategy_metrics := strategy;
      approval_change := change s_rate b_rate;
      balance_change := pct_change s_bal b_bal;
      delinq_change := change s_delinq b_delinq;
      score_change := change s_score b_score;
      comparison_current := [to_float b_appr; in_millions b_bal; to_float b_delinq];
      comparison_strategy := [to_float s_appr; in_millions s_bal; to_float s_delinq]
    |}).

Definition all_columns : list string :=
  ["customer_id"; "acceptance_decision"; "application_score"; "credit_limit";
   "balance"; "utilization_rate"; "delinquency_status"; "income_band";
   "region"; "risk_segment"; "risk_score"].


(** ** Fixtures *)

Definition approved_row (id : Z) (score balance_ : Q) (band : option string)
  : Row :=
  mkRow id "Approved" (Some score) (Some 1000%Q) (Some balance_) (Some 10%Q)
        (Some 0%Q) band None None None.

Definition declined_row (id : Z) (score : Q) : Row :=
  mkRow id "Declined" (Some score) (Some 1000%Q) None None None (Some "Low")
        None None None.

Definition empty_table : DataFrame := mkDF all_columns [].

Definition declined_only : DataFrame := mkDF all_columns [declined_row 1 450].

Definition boundary_scores : DataFrame :=
  mkDF all_columns
    [approved_row 1 499 100 (Some "Low"); approved_row 2 500 100 (Some "Low");
     approved_row 3 649 100 (Some "Low"); approved_row 4 650 100 (Some "Low")].

(** Three approved rows with scores 450, 600, 700 and balances 100, 200,
    300. *)
Definition three_approved : DataFrame :=
  mkDF all_columns
    [approved_row 1 450 100 (Some "Low"); approved_row 2 600 200 (Some "Medium");
     approved_row 3 700 300 (Some "High")].

(** Four approved rows without a [risk_score]; the delinquency statuses
    repeat. *)
Definition ranked_row (id : Z) (delinq util : Q) : Row :=
  mkRow id "Approved" (Some 600%Q) (Some 5000%Q) (Some 3000%Q) (Some util)
        (Some delinq) (Some "Low") None None None.

Definition tie_break_fixture : DataFrame :=
  mkDF ["customer_id"; "acceptance_decision"; "application_score";
        "credit_limit"; "balance"; "utilization_rate"; "delinquency_status";
        "income_band"]
    [ranked_row 1 1 60; ranked_row 2 2 70; ranked_row 3 1 90; ranked_row 4 2 55].

(** ** Orders on cells, in the words of the specification *)

(** [a] is at least [b]; a missing value is below every number. *)
Definition cell_ge (a b : option Q) : Prop :=
  match a, b with
  | Some x, Some y => (y <= x)%Q
  | _, None => True
  | None, Some _ => False
  end.

Definition cell_gt (a b : option Q) : Prop :=
  match a, b with
  | Some x, Some y => (y < x)%Q
  | Some _, None => True
  | None, _ => False
  end.

Definition cell_eq (a b : option Q) : Prop :=
  match a, b with
  | Some x, Some y => (x == y)%Q
  | None, None => True
  | _, _ => False
  end.

(** Descending by one key. *)
Definition desc_by (k : Row → option Q) (r1 r2 : Row) : Prop :=
  cell_ge (k r1) (k r2).

(** Descending by the pair of keys, lexicographically. *)
Definition desc_by2 (k1 k2 : Row → option Q) (r1 r2 : Row) : Prop :=
  cell_gt (k1 r1) (k1 r2)
  ∨ (cell_eq (k1 r1) (k1 r2) ∧ cell_ge (k2 r1) (k2 r2)).

(** The [eligible_mask] entry of a row. *)
Definition eligible (min_score : Z) (income_targets : list string) (r : Row)
  : bool :=
  ge_cell (application_score r) (inject_Z min_score)
  && isin income_targets (income_band r).

(** The content of [strategy_df] after the assignment through [.loc]. *)
Definition working_copy (min_score : Z) (income_targets : list string)
  (t : DataFrame) : DataFrame :=
  mkDF (columns t)
       ((λ r, if eligible min_score income_targets r then r
              else set_acceptance_decision "Declined" r) <$> rows t).

Definition all_bands : list string := ["Low"; "Medium"; "High"].

(** One approved row with a good score and no income band recorded. *)
Definition missing_band : DataFrame :=
  mkDF all_columns [approved_row 1 700 100 None].

(** The portfolio CSV without the optional [income_band] column. *)
Definition no_income_band : DataFrame :=
  mkDF ["customer_id"; "acceptance_decision"; "application_score";
        "credit_limit"; "balance"; "utilization_rate"; "delinquency_status"]
       [approved_row 1 700 100 None].

(** A store that holds one table, at location 0. *)
Definition store_of (t : DataFrame) : gmap nat DataFrame := {[0%nat := t]}.

(** The simulation on that table with the default values of the widgets:
    minimum score 500, multiplier 1, the three income bands. *)
Definition default_run (t : DataFrame)
  : result (option Simulation) * gmap nat DataFrame :=
  create_strategy_simulation 0 500 1 all_bands (store_of t).

(** What the simulation showed, if it showed anything. *)
Definition outcome {H : Type} (out : result (option Simulation) * H)
  : option Simulation :=
  match out.1 with
  | Ok (Some sim) => Some sim
  | _ => None
  end.

(** The [approved_customers] of the simulated metrics. *)
Definition simulated_approved {H : Type} (out : result (option Simulation) * H)
  : option Z :=
  sim ← outcome out;
  match strategy_metrics sim !! "approved_customers" with
  | Some (VInt n) => Some n
  | _ => None
  end.

(** A score under the threshold; a missing score is not [>=] it. *)
Definition below_min_score (min_score : Z) (r : Row) : Prop :=
  match application_score r with
  | Some s => (s < inject_Z min_score)%Q
  | None => True
  end.

(** An income band that is not one of the targets; a missing band is in
    no list. *)
Definition outside_targets (income_targets : list string) (r : Row) : Prop :=
  match income_band r with
  | Some b => b ∉ income_targets
  | None => True
  end.

(** A metric value that is the number zero. *)
Definition is_zero (v : pyval) : Prop :=
  ∃ q, to_float v = Fin q ∧ (q == 0)%Q.

(** ** Conditions on rows, in the words of the specification *)

(** The order of the rationals is decidable. *)
#[global] Instance Qlt_decision (x y : Q) : Decision (x < y)%Q :=
  Z_lt_dec _ _.

#[global] Instance Qle_decision (x y : Q) : Decision (x <= y)%Q :=
  Z_le_dec _ _.

(** The row is marked Approved. *)
Definition marked_approved (r : Row) : Prop :=
  acceptance_decision r = "Approved".

(** The row has a delinquency status, and it is above zero. *)
Definition status_above_zero (r : Row) : Prop :=
  match delinquency_status r with
  | Some q => (0 < q)%Q
  | None => False
  end.

#[global] Instance status_above_zero_dec r : Decision (status_above_zero r) :=
  match delinquency_status r as c
    return Decision (match c with Some q => (0 < q)%Q | None => False end)
  with
  | Some q => Qlt_decision 0 q
  | None => False_dec
  end.

(** An approved row with a delinquency status above zero. *)
Definition approved_and_delinquent (r : Row) : Prop :=
  marked_approved r ∧ status_above_zero r.

(** The number of rows of a table that have a property. *)
Definition count_rows (P : Row → Prop) `{!∀ r, Decision (P r)}
  (df : DataFrame) : Z :=
  Z.of_nat (length (filter P (rows df))).

(** The cell holds a number, and it is at least [x]. *)
Definition at_least (c : option Q) (x : Q) : Prop :=
  match c with
  | Some q => (x <= q)%Q
  | None => False
  end.

(** The cell holds a number, and it is at most [x]. *)
Definition at_most (c : option Q) (x : Q) : Prop :=
  match c with
  | Some q => (q <= x)%Q
  | None => False
  end.

#[global] Instance at_least_dec c x : Decision (at_least c x) :=
  match c as c return Decision (at_least c x) with
  | Some q => Qle_decision x q
  | None => False_dec
  end.

#[global] Instance at_most_dec c x : Decision (at_most c x) :=
  match c as c return Decision (at_most c x) with
  | Some q => Qle_decision q x
  | None => False_dec
  end.

(** The rows that the high-risk page lists for the three thresholds of
    its sliders. *)
Definition high_risk_row (min_balance max_score min_utilization : Q)
  (r : Row) : Prop :=
  marked_approved r
  ∧ at_least (balance r) min_balance
  ∧ at_most (application_score r) max_score
  ∧ at_least (utilization_rate r) min_utilization.

#[global] Instance high_risk_row_dec mb ms mu r
  : Decision (high_risk_row mb ms mu r) := and_dec _ _.

(** A row for the high-risk page, with delinquency status 0. *)
Definition risk_row (id : Z) (decision : string)
  (score balance_ util : option Q) : Row :=
  mkRow id decision score (Some 5000%Q) balance_ util (Some 0%Q) (Some "Low")
        None None None.

(** Rows at and next to the thresholds 1000 (balance), 650 (score) and
    50 (utilization): row 1 meets each threshold exactly, rows 2 to 4 miss
    one of them by one, row 5 is declined, row 6 is well inside, rows 7
    and 8 lack a balance and a score. *)
Definition threshold_fixture : DataFrame :=
  mkDF ["customer_id"; "acceptance_decision"; "application_score";
        "credit_limit"; "balance"; "utilization_rate"; "delinquency_status";
        "income_band"]
    [risk_row 1 "Approved" (Some 650%Q) (Some 1000%Q) (Some 50%Q);
     risk_row 2 "Approved" (Some 650%Q) (Some 999%Q) (Some 50%Q);
     risk_row 3 "Approved" (Some 651%Q) (Some 1000%Q) (Some 50%Q);
     risk_row 4 "Approved" (Some 650%Q) (Some 1000%Q) (Some 49%Q);
     risk_row 5 "Declined" (Some 600%Q) (Some 2000%Q) (Some 80%Q);
     risk_row 6 "Approved" (Some 600%Q) (Some 2000%Q) (Some 80%Q);
     risk_row 7 "Approved" (Some 600%Q) None (Some 80%Q);
     risk_row 8 "Approved" None (Some 2000%Q) (Some 80%Q)].

(** Four approved rows, two of them delinquent (statuses 1 and 3), and a
    declined row with status 2. *)
Definition delinquent_mix : DataFrame :=
  mkDF all_columns
    [ranked_row 1 0 60; ranked_row 2 1 70; ranked_row 3 3 90;
     ranked_row 4 0 50;
     mkRow 5 "Declined" (Some 450%Q) (Some 1000%Q) (Some 200%Q) (Some 95%Q)
           (Some 2%Q) (Some "Low") None None None].

(** ** Sums of an int64 column *)

(** The value of a 64-bit signed integer after wrap-around. *)
Definition int64 (x : Z) : Z := ((x + 2 ^ 63) mod 2 ^ 64 - 2 ^ 63)%Z.

(** [Series.sum()] of an int64 column: the running total wraps around. *)
Definition int64_sum (s : list Z) : Z :=
  foldl (λ acc x, int64 (acc + x)) 0%Z s.

(** The sum of the same numbers without a bound. *)
Definition Zsum (s : list Z) : Z := foldr Z.add 0%Z s.

(** The whole number that a cell holds, if it holds one. *)
Definition whole (c : option Q) : option Z :=
  match c with
  | Some (Qmake z xH) => Some z
  | _ => None
  end.

(** The [balance] column has dtype int64: every row holds a whole number
    in the range of the type. *)
Definition int64_balances (df : DataFrame) : Prop :=
  Forall (λ r, ∃ z, whole (balance r) = Some z
                    ∧ (- 2 ^ 63 ≤ z < 2 ^ 63)%Z) (rows df).

(** The balances of the approved rows of a table with an int64 [balance]
    column. *)
Definition approved_balances (df : DataFrame) : list Z :=
  omap (λ r, whole (balance r)) (rows (approved df)).

(** [approved_df['balance'].sum()] on an int64 column. *)
Definition portfolio_balance_int64 (df : DataFrame) : Z :=
  int64_sum (approved_balances df).


(** ** Further vocabulary *)

(** The keys of the mapping built by [calculate_portfolio_metrics]. *)
Definition metric_keys : list string :=
  ["total_customers"; "approved_customers"; "approval_rate";
   "portfolio_balance"; "total_limits"; "avg_utilization";
   "avg_credit_score"; "delinquency_rate"; "delinquent_customers";
   "high_risk_customers"].

(** The fields that are aggregated over the approved rows only. *)
Definition approved_only_keys : list string :=
  ["approved_customers"; "portfolio_balance"; "total_limits";
   "avg_utilization"; "avg_credit_score"; "delinquency_rate";
   "delinquent_customers"; "high_risk_customers"].

(** The fields that count rows. *)
Definition count_keys : list string :=
  ["total_customers"; "approved_customers"; "delinquent_customers";
   "high_risk_customers"].

(** [three_approved] with a declined application in front. *)
Definition three_approved_one_declined : DataFrame :=
  mkDF all_columns (declined_row 9 800 :: rows three_approved).

(** The fields that only count rows or divide two counts. *)
Definition order_free_keys : list string :=
  ["total_customers"; "approved_customers"; "approval_rate";
   "delinquent_customers"; "high_risk_customers"].

(** [three_approved] with its rows in the opposite order. *)
Definition three_approved_reversed : DataFrame :=
  mkDF all_columns (reverse (rows three_approved)).

(** The sum of the [customers] column of the band table. *)
Definition customers_in_bands (tbl : list (string * Z * np_float)) : Z :=
  foldr Z.add 0%Z ((λ e, snd (fst e)) <$> tbl).

(** A score that lies in one of the bins, i.e. in (0, 900]. *)
Definition on_scale (r : Row) : bool :=
  match application_score r with
  | Some s => Qlt_bool 0 s && Qle_bool s 900
  | None => false
  end.

(** Approved rows with a score of 0, of 950 and without a score, and one
    with score 700. *)
Definition off_scale_scores : DataFrame :=
  mkDF all_columns
    [approved_row 1 0 100 (Some "Low"); approved_row 2 950 100 (Some "Low");
     mkRow 3 "Approved" None (Some 1000%Q) (Some 100%Q) (Some 10%Q) (Some 1%Q)
           (Some "Low") None None None;
     approved_row 4 700 100 (Some "High")].

(** ** Delinquency status distribution *)

(** One more occurrence of [x] in counts kept in ascending order of the
    value. *)
Fixpoint count_value (x : Q) (counts : list (Q * Z)) : list (Q * Z) :=
  match counts with
  | [] => [(x, 1%Z)]
  | (y, n) :: rest =>
      match (x ?= y)%Q with
      | Eq => (y, (n + 1)%Z) :: rest
      | Lt => (x, 1%Z) :: counts
      | Gt => (y, n) :: count_value x rest
      end
  end.

(** [series.value_counts().sort_index()]: the distinct values that are not
    NaN, in ascending order, each with its number of occurrences. *)
Definition value_counts_sort_index (s : list (option Q)) : list (Q * Z) :=
  foldr count_value [] (notna s).

(** The [delinq_counts] of [create_risk_analysis_charts]. *)
Definition delinq_counts (df : DataFrame) : list (Q * Z) :=
  value_counts_sort_index (delinquency_status <$> rows (approved df)).

(** The [delinq_labels]: as many of the four names as there are counts. *)
Definition delinq_labels (df : DataFrame) : list string :=
  take (length (delinq_counts df)) ["Current"; "30 DPD"; "60 DPD"; "90+ DPD"].

(** The number of cells equal to [x]. *)
Definition occurrences (x : Q) (s : list (option Q)) : Z :=
  Z.of_nat (length (List.filter (λ y, Qeq_bool y x) (notna s))).

(** Approved rows with the delinquency statuses 0, 2, 0. *)
Definition statuses_0_2 : DataFrame :=
  mkDF all_columns
    [ranked_row 1 0 60; ranked_row 2 2 70; ranked_row 3 0 90].

(** Approved rows with the five delinquency statuses 0 to 4. *)
Definition five_statuses : DataFrame :=
  mkDF all_columns
    [ranked_row 1 0 60; ranked_row 2 1 70; ranked_row 3 2 90;
     ranked_row 4 3 50; ranked_row 5 4 50].

(** ** The high-risk page *)

(** Rows that have the same sort keys. *)
Definition same_keys (by_ : list (Row → option Q)) (r1 r2 : Row) : bool :=
  match lex_cmp by_ r1 r2 with
  | Eq => true
  | _ => false
  end.

(** [(high_risk_df['delinquency_status'] > 0).sum()] *)
Definition delinquent_count (high_risk : DataFrame) : Z :=
  count_true (gt0 <$> (delinquency_status <$> rows high_risk)).

(** [(high_risk_df['utilization_rate'] > 80).sum()] *)
Definition high_util_count (high_risk : DataFrame) : Z :=
  count_true ((λ c, match c with
                    | Some u => Qlt_bool 80 u
                    | None => false
                    end) <$> (utilization_rate <$> rows high_risk)).

(** The [display_cols] of the page: six columns, and the optional ones the
    table has. *)
Definition display_cols (high_risk : DataFrame) : list string :=
  ["customer_id"; "application_score"; "credit_limit"; "balance";
   "utilization_rate"; "delinquency_status"]
  ++ (if has_column "region" high_risk then ["region"] else [])
  ++ (if has_column "income_band" high_risk then ["income_band"] else [])
  ++ (if has_column "risk_score" high_risk then ["risk_score"] else []).

(** [high_risk_df[display_cols].head(20)] *)
Definition displayed (high_risk : DataFrame) : DataFrame :=
  mkDF (display_cols high_risk) (take 20 (rows high_risk)).

(** Rows with equal keys in the fallback order: 1 and 3, and 2 and 4. *)
Definition equal_keys_fixture : DataFrame :=
  mkDF ["customer_id"; "acceptance_decision"; "application_score";
        "credit_limit"; "balance"; "utilization_rate"; "delinquency_status";
        "income_band"]
    [ranked_row 1 1 60; ranked_row 2 2 70; ranked_row 3 1 60; ranked_row 4 2 70].

(** ** Reading the simulation *)

(** The [approval_rate] of a non-empty table. *)
Definition approval_rate_of (t : DataFrame) : pyval :=
  VFloat (np_mul (Fin (inject_Z (len (approved t)) / inject_Z (len t)))
                 (Fin 100)).

(** A finite number that is at most zero. *)
Definition at_most_zero (f : np_float) : Prop :=
  ∃ q, f = Fin q ∧ (q <= 0)%Q.

(** A finite number equal to zero. *)
Definition equals_zero (f : np_float) : Prop :=
  ∃ q, f = Fin q ∧ (q == 0)%Q.


(** ** The overview charts *)

(** Python's [a - b] on two numbers: an int when both are ints. *)
Definition py_sub (a b : pyval) : pyval :=
  match a, b with
  | VInt x, VInt y => VInt (x - y)
  | _, _ => VFloat (np_sub (to_float a) (to_float b))
  end.

(** The [values] of the composition pie of
    [create_portfolio_overview_charts]: approved and declined. *)
Definition composition_values (metrics : gmap string pyval)
  : result (list pyval) :=
  a ← getitem metrics "approved_customers";
  n ← getitem metrics "total_customers";
  a' ← getitem metrics "approved_customers";
  mret [a; py_sub n a'].

(** The value [v] added to the group of key [k]; the groups are kept in
    ascending order of the key. *)
Fixpoint add_to_group (k : string) (v : Q) (groups : list (string * Q))
  : list (string * Q) :=
  match groups with
  | [] => [(k, v)]
  | (k', s) :: rest =>
      match String.compare k k' with
      | Eq => (k', (s + v)%Q) :: rest
      | Lt => (k, v) :: groups
      | Gt => (k', s) :: add_to_group k v rest
      end
  end.

(** [df.groupby(key)[val].sum().reset_index()]: one line per key that
    occurs, in ascending order of the key; rows without a key are dropped
    and a missing value adds nothing. *)
Definition groupby_sum (key : Row → option string) (val : Row → option Q)
  (l : list Row) : list (string * Q) :=
  foldl (λ groups r,
           match key r with
           | Some k => add_to_group k (default 0%Q (val r)) groups
           | None => groups
           end) [] l.

(** The [balance_by_income] of [create_portfolio_overview_charts]; [None]
    when the table has no [income_band] column and the chart is replaced
    by a note. *)
Definition balance_by_income (df : DataFrame) : option (list (string * Q)) :=
  let approved_df := approved df in
  if has_column "income_band" approved_df
  then Some (groupby_sum income_band balance (rows approved_df))
  else None.

(** The lexical order of strings. *)
Definition string_lt (a b : string) : Prop := String.compare a b = Lt.

(** The balances of the rows of one income band. *)
Definition balances_of_band (k : string) (l : list Row) : list Q :=
  notna (balance <$> List.filter (λ r, bool_decide (income_band r = Some k)) l).

(** Approved rows of the bands Medium, Low, Medium, without a band, High;
    the High row has no balance. *)
Definition mixed_bands : DataFrame :=
  mkDF all_columns
    [approved_row 1 600 200 (Some "Medium"); approved_row 2 600 50 (Some "Low");
     approved_row 3 600 300 (Some "Medium"); approved_row 4 600 70 None;
     mkRow 5 "Approved" (Some 600%Q) (Some 1000%Q) None (Some 10%Q) (Some 0%Q)
           (Some "High") None None None;
     declined_row 6 600].

(** A row with an income band recorded. *)
Definition has_band (r : Row) : bool :=
  match income_band r with
  | Some _ => true
  | None => false
  end.

(** ** The trend insights *)

(** One month of [portfolio_trends_simulation.csv]. *)
Record TrendRow := mkTrendRow {
  month : string;
  delinquency_rate : option Q;
  total_balance : option Q;
  total_customers : option Q
}.

(** The outcome of a positional read. *)
Inductive indexed (A : Type) :=
| At (a : A)
| IndexError.
Arguments At {A} a.
Arguments IndexError {A}.

(** [series.iloc[i]]: a negative position counts from the end; a position
    outside the series raises. *)
Definition iloc {A} (s : list A) (i : Z) : indexed A :=
  let n := Z.of_nat (length s) in
  let j := if (i <? 0)%Z then (n + i)%Z else i in
  if ((0 <=? j) && (j <? n))%Z
  then match s !! Z.to_nat j with
       | Some a => At a
       | None => IndexError
       end
  else IndexError.

(** A cell as a float. *)
Definition cell_float (c : option Q) : np_float :=
  match c with
  | Some q => Fin q
  | None => NaN
  end.

Record TrendInsights := mkTrendInsights {
  delinquency_trend : np_float * np_float;
  portfolio_growth : np_float * np_float;
  avg_customers : np_float
}.

(** The three metrics under "Key Insights" on the trends page of [main]:
    the last delinquency rate and its change since the first month, the
    last balance in millions and its percentage change, and the mean
    number of customers. *)
Definition trend_insights (trends_df : list TrendRow) : indexed TrendInsights :=
  match iloc (delinquency_rate <$> trends_df) 0 with
  | IndexError => IndexError
  | At delinq_start =>
  match iloc (delinquency_rate <$> trends_df) (-1) with
  | IndexError => IndexError
  | At delinq_end =>
  let delinq_change := np_sub (cell_float delinq_end) (cell_float delinq_start) in
  match iloc (total_balance <$> trends_df) 0 with
  | IndexError => IndexError
  | At balance_start =>
  match iloc (total_balance <$> trends_df) (-1) with
  | IndexError => IndexError
  | At balance_end =>
  let balance_change :=
    np_mul (np_truediv (np_sub (cell_float balance_end) (cell_float balance_start))
                       (cell_float balance_start))
           (Fin 100) in
  At {| delinquency_trend := (cell_float delinq_end, delinq_change);
        portfolio_growth :=
          (np_truediv (cell_float balance_end) (Fin 1000000), balance_change);
        avg_customers := series_mean (total_customers <$> trends_df) |}
  end end end end.

(** Twelve months are not needed: a table with the single month January. *)
Definition one_month : list TrendRow :=
  [mkTrendRow "2024-01" (Some 5%Q) (Some 1000000%Q) (Some 200%Q)].

(** ** The data-quality report of [db_setup.py] *)

(** A value in the result of a query. *)
Inductive sqlval :=
| SInt (z : Z)
| SReal (q : Q)
| SText (s : string)
| SNull.

(** A value of the report: a query value, a count, or a nested mapping. *)
Inductive report_value :=
| RValue (v : sqlval)
| RCount (n : Z)
| RDict (d : gmap string sqlval).

(** The mapping returned by [get_table_info] when it succeeds. *)
Record TableInfo := mkTableInfo {
  ti_table_name : string;
  ti_row_count : sqlval;
  ti_columns : list (gmap string sqlval)
}.

(** [frame[column].iloc[0]]; [None] when it raises. *)
Definition first_value (column : string) (frame : list (gmap string sqlval))
  : option sqlval :=
  match frame with
  | r :: _ => r !! column
  | [] => None
  end.

(** [col.get('name', col.get('column_name', ''))] *)
Definition column_name (col : gmap string sqlval) : sqlval :=
  default (default (SText "") (col !! "column_name")) (col !! "name").

(** ['customer_id' in [... for col in columns]] *)
Definition lists_customer_id (cols : list (gmap string sqlval)) : bool :=
  existsb (λ col, match column_name col with
                  | SText s => String.eqb s "customer_id"
                  | _ => false
                  end) cols.

Definition key_columns : list string :=
  ["customer_id"; "application_score"; "credit_limit"; "balance"].

Definition count_query (table_name : string) : string :=
  "SELECT COUNT(*) as row_count FROM " ++ table_name.

Definition pragma_query (table_name : string) : string :=
  "PRAGMA table_info(" ++ table_name ++ ")".

Definition information_schema_query (table_name : string) : string :=
  "
                SELECT column_name, data_type 
                FROM information_schema.columns 
                WHERE table_name = '" ++ table_name ++ "'
                ".

Definition duplicate_query (table_name : string) : string :=
  "
                SELECT customer_id, COUNT(*) as count 
                FROM " ++ table_name ++ " 
                GROUP BY customer_id 
                HAVING COUNT(*) > 1
                ".

Definition null_query (table_name col : string) : string :=
  "SELECT COUNT(*) as null_count FROM " ++ table_name ++ " WHERE " ++ col
  ++ " IS NULL".

Definition range_query (table_name : string) : string :=
  "
                SELECT 
                    MIN(application_score) as min_score,
                    MAX(application_score) as max_score,
                    MIN(credit_limit) as min_limit,
                    MAX(credit_limit) as max_limit,
                    MIN(balance) as min_balance,
                    MAX(balance) as max_balance
                FROM " ++ table_name ++ "
                WHERE application_score IS NOT NULL
                ".

Section database.
(** [self.db_type], and the database behind [self.engine]:
    [read_sql_query q] is the result of [pd.read_sql_query(q, engine)], one
    mapping per row, or [None] when the call raises. The handlers of this
    module catch every exception alike, so the kind of exception is not
    kept. *)
Variable db_type : string.
Variable read_sql_query : string → option (list (gmap string sqlval)).

(** [execute_query]: logs, and raises again what the query raised. *)
Definition execute_query (query : string) : option (list (gmap string sqlval)) :=
  read_sql_query query.

Definition columns_query (table_name : string) : string :=
  if String.eqb db_type "sqlite" then pragma_query table_name
  else information_schema_query table_name.

(** [get_table_info]; [None] is the [{}] of its [except] branch. *)
Definition get_table_info (table_name : string) : option TableInfo :=
  counted ← execute_query (count_query table_name);
  row_count ← first_value "row_count" counted;
  columns_info ← execute_query (columns_query table_name);
  Some (mkTableInfo table_name row_count columns_info).

(** The body of the loop over [key_columns]: a failing query is skipped. *)
Definition add_null_count (table_name : string)
  (null_counts : gmap string sqlval) (col : string) : gmap string sqlval :=
  match execute_query (null_query table_name col) ≫= first_value "null_count" with
  | Some null_count => <[col := null_count]> null_counts
  | None => null_counts
  end.

(** [validate_data_quality]; the empty mapping is the [{}] of its outer
    [except] branch, reached only when the duplicates query raises. *)
Definition validate_data_quality (table_name : string)
  : gmap string report_value :=
  let table_info := get_table_info table_name in
  let quality_results : gmap string report_value :=
    {[ "row_count" := RValue (from_option ti_row_count (SInt 0) table_info) ]} in
  let with_duplicates :=
    if lists_customer_id (from_option ti_columns [] table_info)
    then duplicates ← execute_query (duplicate_query table_name);
         Some (<["duplicate_customers" :=
                   RCount (Z.of_nat (length duplicates))]> quality_results)
    else Some quality_results in
  match with_duplicates with
  | None => ∅
  | Some quality_results =>
      let null_counts := foldl (add_null_count table_name) ∅ key_columns in
      let quality_results :=
        <["null_counts" := RDict null_counts]> quality_results in
      let numeric_checks :=
        match execute_query (range_query table_name) with
        | Some (ranges :: _) => ranges
        | _ => ∅
        end in
      <["numeric_ranges" := RDict numeric_checks]> quality_results
  end.
End database.

(** A database that rejects every query. *)
Definition unreachable_db (query : string) : option (list (gmap string sqlval)) :=
  None.

(** A SQLite database in which the table [credit_portfolio] has three rows
    and a [customer_id] column, and that rejects every other query. *)
Definition db_rejecting_duplicates (query : string)
  : option (list (gmap string sqlval)) :=
  if String.eqb query (count_query "credit_portfolio")
  then Some [{[ "row_count" := SInt 3 ]}]
  else if String.eqb query (pragma_query "credit_portfolio")
  then Some [{[ "name" := SText "customer_id" ]}]
  else None.

(** A PostgreSQL database that answers the count but not the column
    listing of [credit_portfolio]. *)
Definition db_without_column_listing (query : string)
  : option (list (gmap string sqlval)) :=
  if String.eqb query (count_query "credit_portfolio")
  then Some [{[ "row_count" := SInt 3 ]}]
  else if String.eqb query (null_query "credit_portfolio" "balance")
  then Some [{[ "null_count" := SInt 1 ]}]
  else None.

Lemma empty_false_len t : empty t = false → (0 < len t)%Z.
Proof.
  unfold empty, len. destruct (rows t); [done|]. simpl. lia.
Qed.

Lemma metrics_fields t :
  empty t = false →
  ∃ m, calculate_portfolio_metrics t = Ok m
    ∧ m !! "total_customers" = Some (VInt (len t))
    ∧ m !! "approved_customers" = Some (VInt (len (approved t)))
    ∧ m !! "approval_rate" =
        Some (VFloat (np_mul (Fin (inject_Z (len (approved t)) / inject_Z (len t)))
                             (Fin 100)))
    ∧ m !! "portfolio_balance" =
        Some (VFloat (series_sum (balance <$> rows (approved t))))
    ∧ m !! "avg_utilization" =
        Some (VFloat (series_mean (utilization_rate <$> rows (approved t))))
    ∧ m !! "avg_credit_score" =
        Some (VFloat (series_mean (application_score <$> rows (approved t))))
    ∧ m !! "delinquency_rate" =
        Some (VFloat (pct_positive (delinquency_status <$> rows (approved t))))
    ∧ m !! "delinquent_customers" =
        Some (VInt (count_true (gt0 <$> (delinquency_status <$> rows (approved t))))).
Proof.
  intros He. pose proof (empty_false_len t He) as Hlen.
  unfold calculate_portfolio_metrics. rewrite He.
  replace (0 <? len t)%Z with true by (symmetry; apply Z.ltb_lt; lia).
  unfold py_truediv.
  replace (len t =? 0)%Z with false by (symmetry; apply Z.eqb_neq; lia).
  eexists. split; [reflexivity|].
  repeat split; reflexivity.
Qed.

(** ** Metrics of degenerate tables *)

Lemma count_true_gt0 (l : list Row) :
  count_true (gt0 <$> (delinquency_status <$> l))
  = Z.of_nat (length (List.filter (λ r, gt0 (delinquency_status r)) l)).
Proof.
  unfold count_true. f_equal.
  induction l as [|r l IH]; [done|].
  simpl. destruct (gt0 (delinquency_status r)); simpl; [f_equal|]; exact IH.
Qed.

Lemma pct_positive_nil : pct_positive [] = NaN.
Proof. reflexivity. Qed.

Lemma pct_positive_cons (l : list Row) :
  l ≠ [] →
  pct_positive (delinquency_status <$> l)
  = Fin (inject_Z (Z.of_nat (length (List.filter (λ r, gt0 (delinquency_status r)) l)))
         / inject_Z (Z.of_nat (length l)) * 100).
Proof.
  intros Hl. unfold pct_positive, bool_mean.
  rewrite count_true_gt0, !length_fmap.
  destruct l; [done|]. reflexivity.
Qed.

Lemma len_zero_rows t : len t = 0%Z → rows t = [].
Proof. unfold len. destruct (rows t); [done|]. simpl. lia. Qed.

(** C1 (as the code has it). On an empty table [calculate_portfolio_metrics]
    takes its [if df.empty: return {}] exit: it does not raise, and the
    mapping it returns has no field at all, so every later
    [metrics[key]] raises a KeyError. *)
Theorem metrics_of_empty_table (df : DataFrame) (key : string) :
  empty df = true →
  calculate_portfolio_metrics df = Ok ∅
  ∧ calculate_portfolio_metrics df ≫= (λ m, getitem m key) = Raise (KeyError key).
Proof.
  intros He. unfold calculate_portfolio_metrics. rewrite He. done.
Qed.

Lemma metrics_of_empty_table_witness :
  calculate_portfolio_metrics empty_table = Ok ∅
  ∧ calculate_portfolio_metrics empty_table ≫= (λ m, getitem m "approval_rate")
    = Raise (KeyError "approval_rate").
Proof. apply (metrics_of_empty_table empty_table "approval_rate"). reflexivity. Defined.

(** C1 fails as stated: the result for the empty table has no
    [total_customers] field (nor any other). *)
Lemma metrics_of_empty_table_lacks_fields :
  ¬ ∃ m, calculate_portfolio_metrics empty_table = Ok m
       ∧ m !! "total_customers" = Some (VInt 0).
Proof. intros (m & Hm & Hk). vm_compute in Hm. by simplify_eq. Qed.

(** ** The tests of the code against the conditions of the specification *)

Lemma is_approved_marked r : is_approved r = true ↔ marked_approved r.
Proof. apply String.eqb_eq. Qed.

Lemma gt0_above_zero r :
  gt0 (delinquency_status r) = true ↔ status_above_zero r.
Proof.
  unfold gt0, status_above_zero.
  destruct (delinquency_status r) as [q|]; [|done].
  unfold Qlt_bool. rewrite negb_true_iff. split.
  - intros H. apply Qnot_le_lt. intros Hle.
    apply Qle_bool_iff in Hle. congruence.
  - intros H. destruct (Qle_bool q 0) eqn:E; [|done].
    apply Qle_bool_iff in E. lra.
Qed.

Lemma filter_decide {A} (b : A → bool) (P : A → Prop)
  `{!∀ x, Decision (P x)} (l : list A) :
  (∀ x, b x = true ↔ P x) → List.filter b l = filter P l.
Proof.
  intros Hb. induction l as [|x l IH]; [done|].
  simpl. rewrite filter_cons. destruct (decide (P x)) as [HP|HP].
  - apply Hb in HP. rewrite HP. by rewrite IH.
  - destruct (b x) eqn:E; [by apply Hb in E|done].
Qed.

Lemma filter_filter_andb {A} (p q : A → bool) (l : list A) :
  List.filter q (List.filter p l) = List.filter (λ x, p x && q x) l.
Proof.
  induction l as [|x l IH]; simpl; [done|].
  destruct (p x); simpl; [|done]. destruct (q x); by rewrite IH.
Qed.

Lemma len_approved_count t : len (approved t) = count_rows marked_approved t.
Proof.
  unfold len, count_rows. simpl.
  by rewrite (filter_decide is_approved marked_approved)
    by apply is_approved_marked.
Qed.

Lemma len_delinquent_count t :
  Z.of_nat (length (List.filter (λ r, gt0 (delinquency_status r))
                                (rows (approved t))))
  = count_rows approved_and_delinquent t.
Proof.
  unfold count_rows. simpl. rewrite filter_filter_andb.
  rewrite (filter_decide _ approved_and_delinquent); [done|].
  intros r. rewrite andb_true_iff, is_approved_marked, gt0_above_zero. done.
Qed.

(** C2 (as the code has it). For a non-empty table the call returns.
    [approved_customers] is the number of rows marked Approved and
    [delinquent_customers] the number of rows marked Approved whose
    delinquency status is a number above zero. With no approved row
    [delinquency_rate] is NaN, the same placeholder as [avg_utilization]
    and [avg_credit_score]; with at least one approved row it is
    [delinquent_customers / approved_customers * 100]. *)
Theorem delinquency_rate_formula (t : DataFrame) :
  empty t = false →
  ∃ m, calculate_portfolio_metrics t = Ok m
    ∧ m !! "approved_customers" = Some (VInt (count_rows marked_approved t))
    ∧ m !! "delinquent_customers"
      = Some (VInt (count_rows approved_and_delinquent t))
    ∧ (count_rows marked_approved t = 0%Z →
         m !! "delinquency_rate" = Some (VFloat NaN)
         ∧ m !! "avg_utilization" = Some (VFloat NaN)
         ∧ m !! "avg_credit_score" = Some (VFloat NaN))
    ∧ ((0 < count_rows marked_approved t)%Z →
         m !! "delinquency_rate" =
           Some (VFloat (Fin (inject_Z (count_rows approved_and_delinquent t)
                              / inject_Z (count_rows marked_approved t) * 100)))).
Proof.
  intros He.
  destruct (metrics_fields t He)
    as (m & Hm & _ & Happ & _ & _ & Hutil & Hscore & Hrate & Hcount).
  exists m. split; [done|].
  rewrite <- len_approved_count, <- len_delinquent_count.
  split; [done|].
  split; [by rewrite Hcount, count_true_gt0|].
  split.
  - intros H0. apply len_zero_rows in H0.
    rewrite Hrate, Hutil, Hscore, H0. done.
  - intros Hpos. rewrite Hrate, pct_positive_cons; [done|].
    intros Hnil. unfold len in Hpos. rewrite Hnil in Hpos. simpl in Hpos. lia.
Qed.

(** Both cases at a table: four approved rows of which two are delinquent
    (and a declined row with a positive status, which does not count)
    give 2, 4 and the rate 2 / 4 * 100; one declined row alone gives NaN. *)
Lemma delinquency_rate_formula_witness :
  (∃ m, calculate_portfolio_metrics delinquent_mix = Ok m
     ∧ m !! "approved_customers" = Some (VInt 4)
     ∧ m !! "delinquent_customers" = Some (VInt 2)
     ∧ m !! "delinquency_rate"
       = Some (VFloat (Fin (inject_Z 2 / inject_Z 4 * 100))))
  ∧ (∃ m, calculate_portfolio_metrics declined_only = Ok m
       ∧ m !! "approved_customers" = Some (VInt 0)
       ∧ m !! "delinquency_rate" = Some (VFloat NaN)).
Proof.
  split.
  - destruct (delinquency_rate_formula delinquent_mix eq_refl)
      as (m & Hm & Ha & Hd & _ & Hrate).
    exists m. split; [exact Hm|]. split; [exact Ha|]. split; [exact Hd|].
    apply Hrate. reflexivity.
  - destruct (delinquency_rate_formula declined_only eq_refl)
      as (m & Hm & Ha & _ & Hnan & _).
    exists m. split; [exact Hm|]. split; [exact Ha|].
    apply Hnan. reflexivity.
Defined.

(** The mapping computed for that table: the declined row with status 2
    and the approved rows with status 0 are not counted. *)
Example delinquent_mix_metrics :
  calculate_portfolio_metrics delinquent_mix
    ≫= (λ m, getitem m "delinquent_customers") = Ok (VInt 2)
  ∧ calculate_portfolio_metrics delinquent_mix
      ≫= (λ m, getitem m "approved_customers") = Ok (VInt 4)
  ∧ ∃ q, calculate_portfolio_metrics delinquent_mix
           ≫= (λ m, getitem m "delinquency_rate") = Ok (VFloat (Fin q))
         ∧ (q == 50)%Q.
Proof.
  split; [reflexivity|]. split; [reflexivity|].
  eexists. split; [reflexivity|]. reflexivity.
Qed.

(** C2 fails as stated: a table with one declined row and no approved row
    gets [delinquency_rate] NaN, which is not the number 0. *)
Lemma delinquency_rate_without_approved_rows :
  empty declined_only = false
  ∧ len (approved declined_only) = 0%Z
  ∧ calculate_portfolio_metrics declined_only
      ≫= (λ m, getitem m "delinquency_rate") = Ok (VFloat NaN)
  ∧ ¬ is_zero (VFloat NaN).
Proof.
  repeat split; try reflexivity.
  intros (q & Hq & _). discriminate Hq.
Qed.

(** ** Score bands *)

(** C3, at its example. The bins of [pd.cut] are closed on the right:
    the scores 500 and 650 fall in the bands labelled [<500] and
    [600-649], and the bands without a row have no line in the result. *)
Theorem boundary_scores_bands :
  (λ e, (e.1.1, e.1.2)) <$> risk_by_score boundary_scores
    = [("<500", 2%Z); ("600-649", 2%Z)]
  ∧ customers "500-599" (risk_by_score boundary_scores) = None
  ∧ customers "650-699" (risk_by_score boundary_scores) = None.
Proof. repeat split; reflexivity. Qed.

(** ** Sorting *)

Lemma desc_cmp_opp a b : desc_cmp b a = CompOpp (desc_cmp a b).
Proof.
  destruct a as [x|], b as [y|]; simpl; try done.
  symmetry. apply Qcompare_antisym.
Qed.

Lemma desc_cmp_Lt a b : desc_cmp a b = Lt ↔ cell_gt a b.
Proof.
  destruct a as [x|], b as [y|]; simpl; first [done | symmetry; apply Qlt_alt].
Qed.

Lemma desc_cmp_Eq a b : desc_cmp a b = Eq ↔ cell_eq a b.
Proof.
  destruct a as [x|], b as [y|]; simpl; try done.
  rewrite <- (Qeq_alt y x). split; intros H; by symmetry.
Qed.

Lemma desc_cmp_not_Gt a b : desc_cmp a b ≠ Gt ↔ cell_ge a b.
Proof.
  destruct a as [x|], b as [y|]; simpl; first [done | symmetry; apply Qle_alt].
Qed.

Section sort_values.
Variable by_ : list (Row → option Q).

Let before (r1 r2 : Row) : Prop := precedes by_ r1 r2 = true.

Lemma lex_cmp_opp r1 r2 : lex_cmp by_ r2 r1 = CompOpp (lex_cmp by_ r1 r2).
Proof.
  induction by_ as [|k ks IH]; simpl; [done|].
  rewrite (desc_cmp_opp (k r1) (k r2)).
  destruct (desc_cmp (k r1) (k r2)); simpl; done.
Qed.

Lemma precedes_total r1 r2 :
  precedes by_ r1 r2 = false → precedes by_ r2 r1 = true.
Proof.
  unfold precedes. rewrite (lex_cmp_opp r1 r2).
  destruct (lex_cmp by_ r1 r2); simpl; done.
Qed.

Lemma insert_row_Permutation r l : insert_row by_ r l ≡ₚ r :: l.
Proof.
  induction l as [|r' l IH]; simpl; [done|].
  destruct (precedes by_ r r'); [done|].
  rewrite IH. apply Permutation_swap.
Qed.

Lemma insert_row_HdRel r0 r l :
  before r0 r → HdRel before r0 l → HdRel before r0 (insert_row by_ r l).
Proof.
  intros H0 Hl. destruct l as [|r' l]; simpl.
  - by constructor.
  - destruct (precedes by_ r r'); constructor; [done|].
    by inversion Hl.
Qed.

Lemma insert_row_Sorted r l :
  Sorted before l → Sorted before (insert_row by_ r l).
Proof.
  induction 1 as [|r' l Hs IH Hhd]; simpl.
  - repeat constructor.
  - destruct (precedes by_ r r') eqn:Hp.
    + repeat constructor; done.
    + constructor; [done|].
      apply insert_row_HdRel; [|done].
      by apply precedes_total.
Qed.

Lemma sort_values_Permutation df : rows (sort_values by_ df) ≡ₚ rows df.
Proof.
  simpl. induction (rows df) as [|r l IH]; simpl; [done|].
  by rewrite insert_row_Permutation, IH.
Qed.

Lemma sort_values_Sorted df : Sorted before (rows (sort_values by_ df)).
Proof.
  simpl. induction (rows df) as [|r l IH]; simpl; [constructor|].
  by apply insert_row_Sorted.
Qed.
End sort_values.

Lemma precedes_one k r1 r2 : precedes [k] r1 r2 = true → desc_by k r1 r2.
Proof.
  unfold precedes, desc_by. simpl. intros H.
  apply desc_cmp_not_Gt. destruct (desc_cmp (k r1) (k r2)); done.
Qed.

Lemma precedes_two k1 k2 r1 r2 :
  precedes [k1; k2] r1 r2 = true → desc_by2 k1 k2 r1 r2.
Proof.
  unfold precedes, desc_by2. simpl. intros H.
  destruct (desc_cmp (k1 r1) (k1 r2)) eqn:H1.
  - right. split; [by apply desc_cmp_Eq|].
    apply desc_cmp_not_Gt. destruct (desc_cmp (k2 r1) (k2 r2)); done.
  - left. by apply desc_cmp_Lt.
  - done.
Qed.

Lemma Sorted_weaken {A} (R1 R2 : relation A) l :
  (∀ x y, R1 x y → R2 x y) → Sorted R1 l → Sorted R2 l.
Proof.
  intros HR. induction 1 as [|x l Hs IH Hhd]; constructor; [done|].
  destruct Hhd; constructor. by apply HR.
Qed.

#[local] Instance cell_ge_trans : Transitive cell_ge.
Proof.
  intros [x|] [y|] [z|]; simpl; try done.
  intros H1 H2. by apply Qle_trans with y.
Qed.

#[local] Instance desc_by_trans k : Transitive (desc_by k).
Proof. intros r1 r2 r3. unfold desc_by. apply cell_ge_trans. Qed.

Lemma cell_gt_trans a b c : cell_gt a b → cell_gt b c → cell_gt a c.
Proof.
  destruct a as [x|], b as [y|], c as [z|]; simpl; try done.
  intros H1 H2. by apply Qlt_trans with y.
Qed.

Lemma cell_gt_eq a b c : cell_gt a b → cell_eq b c → cell_gt a c.
Proof.
  destruct a as [x|], b as [y|], c as [z|]; simpl; try done.
  intros H1 H2. by rewrite <- H2.
Qed.

Lemma cell_eq_gt a b c : cell_eq a b → cell_gt b c → cell_gt a c.
Proof.
  destruct a as [x|], b as [y|], c as [z|]; simpl; try done.
  intros H1 H2. by rewrite H1.
Qed.

Lemma cell_eq_trans a b c : cell_eq a b → cell_eq b c → cell_eq a c.
Proof.
  destruct a as [x|], b as [y|], c as [z|]; simpl; try done.
  intros H1 H2. by rewrite H1.
Qed.

#[local] Instance desc_by2_trans k1 k2 : Transitive (desc_by2 k1 k2).
Proof.
  intros r1 r2 r3 [H12|[E12 G12]] [H23|[E23 G23]].
  - left. by eapply cell_gt_trans.
  - left. by eapply cell_gt_eq.
  - left. by eapply cell_eq_gt.
  - right. split; [by eapply cell_eq_trans | by etransitivity].
Qed.

Lemma ge_cell_at_least c x : ge_cell c x = true ↔ at_least c x.
Proof. destruct c as [q|]; simpl; [apply Qle_bool_iff|done]. Qed.

Lemma le_cell_at_most c x : le_cell c x = true ↔ at_most c x.
Proof. destruct c as [q|]; simpl; [apply Qle_bool_iff|done]. Qed.

Lemma high_risk_filter (l : list Row) (min_balance max_score min_utilization : Q) :
  List.filter
    (λ r, is_approved r
          && (ge_cell (balance r) min_balance
              && le_cell (application_score r) max_score
              && ge_cell (utilization_rate r) min_utilization)) l
  = filter (high_risk_row min_balance max_score min_utilization) l.
Proof.
  apply filter_decide. intros r. unfold high_risk_row.
  rewrite !andb_true_iff, is_approved_marked, !ge_cell_at_least,
    le_cell_at_most.
  tauto.
Qed.

(** C8. The high-risk table holds exactly the rows that are marked
    Approved and have a balance of at least [min_balance], an application
    score of at most [max_score] and a utilization rate of at least
    [min_utilization] (each once per occurrence; a row that lacks one of
    the three numbers is not listed); it is in descending order of
    [risk_score] when the table has that column, and otherwise in
    descending lexicographic order of ([delinquency_status],
    [utilization_rate]); missing values come last. *)
Theorem high_risk_df_selects_and_orders
  (df : DataFrame) (min_balance max_score min_utilization : Q) :
  let out := rows (high_risk_df df min_balance max_score min_utilization) in
  out ≡ₚ filter (high_risk_row min_balance max_score min_utilization) (rows df)
  ∧ (if has_column "risk_score" df
     then StronglySorted (desc_by risk_score) out
     else StronglySorted (desc_by2 delinquency_status utilization_rate) out).
Proof.
  unfold high_risk_df.
  change (has_column "risk_score"
            (select (high_risk_mask min_balance max_score min_utilization)
                    (approved df)))
    with (has_column "risk_score" df).
  set (sel := select (high_risk_mask min_balance max_score min_utilization)
                     (approved df)).
  assert (Hsel : rows sel
            = filter (high_risk_row min_balance max_score min_utilization)
                     (rows df)).
  { rewrite <- high_risk_filter. apply filter_filter_andb. }
  rewrite <- Hsel.
  destruct (has_column "risk_score" df); cbv zeta; split.
  - apply sort_values_Permutation.
  - apply Sorted_StronglySorted; [apply _|].
    eapply Sorted_weaken; [apply precedes_one|].
    apply sort_values_Sorted.
  - apply sort_values_Permutation.
  - apply Sorted_StronglySorted; [apply _|].
    eapply Sorted_weaken; [apply precedes_two|].
    apply sort_values_Sorted.
Qed.

(** The thresholds are inclusive. With the thresholds 1000, 650 and 50
    the page lists the row that meets each of them exactly; the rows with
    a balance of 999, a score of 651 or a utilization of 49 are left out,
    and so are the declined row and the rows without a balance or a
    score. *)
Example thresholds_are_inclusive :
  customer_id <$> rows (high_risk_df threshold_fixture 1000 650 50)
  = [6; 1]%Z
  ∧ customer_id <$> filter (high_risk_row 1000 650 50) (rows threshold_fixture)
    = [1; 6]%Z.
Proof. split; reflexivity. Qed.

(** The fallback order on a table without [risk_score]: status 2 before
    status 1, and within a status the higher utilization first. *)
Example tie_break_order :
  customer_id <$> rows (high_risk_df tie_break_fixture 1000 650 50)
  = [2; 4; 3; 1]%Z.
Proof. reflexivity. Qed.

(** ** Running the simulation *)

Lemma loc_mask_rows (ms : Z) (tg : list string) (l : list Row) :
  zip_with (λ r (b : bool), if b then set_acceptance_decision "Declined" r else r)
    l (negb <$> zip_with andb
                  ((λ s, ge_cell s (inject_Z ms)) <$> (application_score <$> l))
                  (isin tg <$> (income_band <$> l)))
  = (λ r, if eligible ms tg r then r
          else set_acceptance_decision "Declined" r) <$> l.
Proof.
  induction l as [|r l IH]; [done|].
  cbn. f_equal; [|exact IH].
  unfold eligible. by destruct (_ && _).
Qed.

Lemma working_copy_empty ms tg t : empty (working_copy ms tg t) = empty t.
Proof. unfold empty. simpl. by destruct (rows t). Qed.

(** Unfolds the simulation up to the read of the [income_band] column. *)
Ltac run_to_income_band Hh He Hb :=
  unfold create_strategy_simulation, mbind, M_bind, deref;
  rewrite Hh, He; unfold lift; rewrite Hb;
  unfold df_copy, mbind, M_bind, deref, alloc; rewrite Hh;
  unfold getitem_application_score, mbind, M_bind, deref;
  rewrite lookup_insert_eq; unfold mret, M_ret;
  unfold getitem_income_band, mbind, M_bind, deref;
  rewrite lookup_insert_eq.

Lemma simulation_empty h df t ms lm tg :
  h !! df = Some t → empty t = true →
  create_strategy_simulation df ms lm tg h = (Ok None, h).
Proof.
  intros Hh He. unfold create_strategy_simulation, mbind, M_bind, deref.
  by rewrite Hh, He.
Qed.

Lemma simulation_no_column h df t ms lm tg :
  h !! df = Some t → empty t = false → has_column "income_band" t = false →
  create_strategy_simulation df ms lm tg h
  = (Raise (KeyError "income_band"), <[fresh (dom h) := t]> h).
Proof.
  intros Hh He Hc. destruct (metrics_fields t He) as (b & Hb & _).
  run_to_income_band Hh He Hb. by rewrite Hc.
Qed.

Lemma simulation_run h df t ms lm tg :
  h !! df = Some t → empty t = false → has_column "income_band" t = true →
  ∃ sim b s,
    create_strategy_simulation df ms lm tg h
      = (Ok (Some sim), <[fresh (dom h) := working_copy ms tg t]> h)
    ∧ calculate_portfolio_metrics t = Ok b
    ∧ calculate_portfolio_metrics (working_copy ms tg t) = Ok s
    ∧ baseline_metrics sim = b
    ∧ strategy_metrics sim = s
    ∧ balance_change sim =
        pct_change
          (VFloat (series_sum (balance <$> rows (approved (working_copy ms tg t)))))
          (VFloat (series_sum (balance <$> rows (approved t)))).
Proof.
  intros Hh He Hc.
  destruct (metrics_fields t He)
    as (b & Hb & _ & Hb2 & Hb3 & Hb4 & _ & Hb6 & Hb7 & _).
  pose proof (working_copy_empty ms tg t) as He'. rewrite He in He'.
  destruct (metrics_fields _ He')
    as (s & Hs & _ & Hs2 & Hs3 & Hs4 & _ & Hs6 & Hs7 & _).
  eexists _, b, s. split.
  - run_to_income_band Hh He Hb. rewrite Hc.
    unfold mret, M_ret.
    unfold loc_setitem_acceptance_decision, mbind, M_bind, deref, store.
    rewrite lookup_insert_eq, insert_insert_eq, lookup_insert_eq.
    rewrite loc_mask_rows. fold (working_copy ms tg t).
    rewrite Hs. unfold getitem.
    rewrite Hb2, Hb3, Hb4, Hb6, Hb7, Hs2, Hs3, Hs4, Hs6, Hs7.
    reflexivity.
  - repeat split; first [done | reflexivity].
Qed.

(** The simulation shows nothing exactly on an empty table or on one
    without the [income_band] column. *)
Lemma outcome_none h df t ms lm tg :
  h !! df = Some t →
  empty t = true ∨ has_column "income_band" t = false →
  outcome (create_strategy_simulation df ms lm tg h) = None.
Proof.
  intros Hh Hcase. unfold outcome.
  destruct (empty t) eqn:He.
  - by rewrite (simulation_empty h df t).
  - destruct Hcase as [|Hc]; [done|].
    by rewrite (simulation_no_column h df t).
Qed.

(** Without the column the read [strategy_df['income_band']] raises. *)
Example simulation_without_income_band_column :
  (default_run no_income_band).1 = Raise (KeyError "income_band").
Proof. reflexivity. Qed.

(** The default policy on [three_approved]: the row with score 450 is
    dropped and the balance goes from 600 to 500. *)
Example three_approved_simulation :
  (outcome (default_run three_approved) ≫= λ sim,
     baseline_metrics sim !! "approved_customers") = Some (VInt 3)
  ∧ simulated_approved (default_run three_approved) = Some 2%Z
  ∧ (outcome (default_run three_approved) ≫= λ sim,
       baseline_metrics sim !! "portfolio_balance") = Some (VFloat (Fin 600))
  ∧ (outcome (default_run three_approved) ≫= λ sim,
       strategy_metrics sim !! "portfolio_balance") = Some (VFloat (Fin 500)).
Proof. repeat split; reflexivity. Qed.

(** ** The policy on the working copy *)

Lemma ge_cell_false (c : option Q) (x : Q) :
  ge_cell c x = false ↔ match c with Some s => (s < x)%Q | None => True end.
Proof.
  destruct c as [s|]; simpl; [|done].
  rewrite <- not_true_iff_false, Qle_bool_iff.
  split; [apply Qnot_le_lt | apply Qlt_not_le].
Qed.

Lemma isin_false (tg : list string) (c : option string) :
  isin tg c = false ↔ match c with Some b => b ∉ tg | None => True end.
Proof.
  destruct c as [b|]; simpl; [|done].
  by rewrite bool_decide_eq_false.
Qed.

Lemma eligible_false ms tg r :
  eligible ms tg r = false ↔ below_min_score ms r ∨ outside_targets tg r.
Proof.
  unfold eligible, below_min_score, outside_targets.
  by rewrite andb_false_iff, ge_cell_false, isin_false.
Qed.

Lemma eligible_true ms tg r :
  eligible ms tg r = true ↔ ¬ (below_min_score ms r ∨ outside_targets tg r).
Proof. rewrite <- eligible_false. by destruct (eligible ms tg r). Qed.

(** C4 (as the code has it). On a non-empty table that has the
    [income_band] column the simulation leaves its working copy at a new
    location, and row by row: a row whose [application_score] is below
    [min_score] (or missing) or whose [income_band] is not one of the
    targets (a missing band is not one of them) has its decision set to
    Declined; every other row is copied as it is. *)
Theorem policy_forces_declined h df t min_score limit_multiplier income_targets :
  h !! df = Some t → empty t = false → has_column "income_band" t = true →
  ∃ sim t',
    create_strategy_simulation df min_score limit_multiplier income_targets h
      = (Ok (Some sim), <[fresh (dom h) := t']> h)
    ∧ columns t' = columns t
    ∧ length (rows t') = length (rows t)
    ∧ ∀ i r, rows t !! i = Some r →
        (below_min_score min_score r ∨ outside_targets income_targets r →
           rows t' !! i = Some (set_acceptance_decision "Declined" r))
        ∧ (¬ (below_min_score min_score r ∨ outside_targets income_targets r) →
           rows t' !! i = Some r).
Proof.
  intros Hh He Hc.
  destruct (simulation_run h df t min_score limit_multiplier income_targets
              Hh He Hc) as (sim & b & s & Hrun & _).
  exists sim, (working_copy min_score income_targets t).
  split; [done|]. split; [done|]. split; [by simpl; rewrite length_fmap|].
  intros i r Hi. simpl. rewrite list_lookup_fmap, Hi. simpl.
  split; intros Hp.
  - apply eligible_false in Hp. by rewrite Hp.
  - apply eligible_true in Hp. by rewrite Hp.
Qed.

Lemma policy_forces_declined_witness :
  ∃ sim t',
    create_strategy_simulation 0 500 1 all_bands (store_of boundary_scores)
      = (Ok (Some sim), <[fresh (dom (store_of boundary_scores)) := t']>
                          (store_of boundary_scores))
    ∧ columns t' = columns boundary_scores
    ∧ length (rows t') = length (rows boundary_scores)
    ∧ ∀ i r, rows boundary_scores !! i = Some r →
        (below_min_score 500 r ∨ outside_targets all_bands r →
           rows t' !! i = Some (set_acceptance_decision "Declined" r))
        ∧ (¬ (below_min_score 500 r ∨ outside_targets all_bands r) →
           rows t' !! i = Some r).
Proof.
  apply (policy_forces_declined (store_of boundary_scores) 0 boundary_scores
           500 1 all_bands); reflexivity.
Defined.

(** C4 fails as stated: an approved row with score 700 and no income band
    recorded is Declined in the working copy under the default policy. *)
Lemma missing_income_band_is_declined :
  acceptance_decision <$> rows missing_band = ["Approved"]
  ∧ application_score <$> rows missing_band = [Some 700%Q]
  ∧ income_band <$> rows missing_band = [None]
  ∧ (λ t', acceptance_decision <$> rows t')
      <$> ((default_run missing_band).2 !! fresh (dom (store_of missing_band)))
    = Some ["Declined"].
Proof. repeat split; reflexivity. Qed.

(** ** The input table is not written to *)

Lemma simulation_heap h df ms lm tg :
  let h' := (create_strategy_simulation df ms lm tg h).2 in
  h' = h ∨ ∃ x, h' = <[fresh (dom h) := x]> h.
Proof.
  destruct (h !! df) as [t|] eqn:Hh.
  - destruct (empty t) eqn:He.
    { left. by rewrite (simulation_empty h df t). }
    right. destruct (has_column "income_band" t) eqn:Hc.
    + destruct (simulation_run h df t ms lm tg Hh He Hc)
        as (sim & b & s & Hrun & _).
      rewrite Hrun. by eexists.
    + rewrite (simulation_no_column h df t) by done. by eexists.
  - left. unfold create_strategy_simulation, mbind, M_bind, deref.
    by rewrite Hh.
Qed.

(** C5. Whatever the outcome of the simulation (a result, nothing for an
    empty table, or an exception), every table that existed before the
    call, the input table among them, is the same after it: the only
    write goes to the copy, at a location that was not in use. *)
Theorem simulation_leaves_tables_unchanged
  h df min_score limit_multiplier income_targets l x :
  h !! l = Some x →
  (create_strategy_simulation df min_score limit_multiplier income_targets h).2
    !! l = Some x.
Proof.
  intros Hl.
  destruct (simulation_heap h df min_score limit_multiplier income_targets)
    as [ -> | [y ->] ]; [done|].
  rewrite lookup_insert_ne; [done|].
  intros <-. apply (is_fresh (dom h)). apply elem_of_dom. by eexists.
Qed.

Lemma simulation_leaves_tables_unchanged_witness :
  (create_strategy_simulation 0 500 1 all_bands (store_of boundary_scores)).2
    !! 0%nat = Some boundary_scores.
Proof.
  apply (simulation_leaves_tables_unchanged (store_of boundary_scores) 0 500 1
           all_bands 0%nat boundary_scores).
  reflexivity.
Defined.

(** ** Monotonicity *)

Lemma is_approved_declined r :
  is_approved (set_acceptance_decision "Declined" r) = false.
Proof. reflexivity. Qed.

Lemma filter_length_le {A} (p q : A → bool) (f g : A → A) (l : list A) :
  (∀ x, p (f x) = true → q (g x) = true) →
  (length (List.filter p (f <$> l)) ≤ length (List.filter q (g <$> l)))%nat.
Proof.
  intros Hpq. induction l as [|x l IH]; [done|].
  cbn. specialize (Hpq x).
  destruct (p (f x)).
  - rewrite Hpq by done. cbn. apply le_n_S, IH.
  - destruct (q (g x)); cbn; [apply le_S|]; apply IH.
Qed.

Lemma eligible_mono ms1 ms2 tg r :
  (ms1 ≤ ms2)%Z → eligible ms2 tg r = true → eligible ms1 tg r = true.
Proof.
  intros Hms. unfold eligible. rewrite !andb_true_iff.
  intros [Hs Hb]. split; [|done].
  destruct (application_score r) as [s|]; simpl in *; [|done].
  apply Qle_bool_iff. apply Qle_bool_iff in Hs.
  apply Qle_trans with (inject_Z ms2); [|done].
  by rewrite <- Zle_Qle.
Qed.

Lemma approved_working_copy_mono ms1 ms2 tg t :
  (ms1 ≤ ms2)%Z →
  (len (approved (working_copy ms2 tg t))
   ≤ len (approved (working_copy ms1 tg t)))%Z.
Proof.
  intros Hms. unfold len. apply inj_le. simpl.
  apply filter_length_le. intros r.
  destruct (eligible ms2 tg r) eqn:E2; [|by rewrite is_approved_declined].
  by rewrite (eligible_mono ms1 ms2 tg r Hms E2).
Qed.

Lemma simulated_approved_run h df t ms lm tg :
  h !! df = Some t → empty t = false → has_column "income_band" t = true →
  simulated_approved (create_strategy_simulation df ms lm tg h)
  = Some (len (approved (working_copy ms tg t))).
Proof.
  intros Hh He Hc.
  destruct (simulation_run h df t ms lm tg Hh He Hc)
    as (sim & b & s & Hrun & _ & Hs & _ & Hsim & _).
  pose proof (working_copy_empty ms tg t) as He'. rewrite He in He'.
  destruct (metrics_fields _ He') as (s' & Hs' & _ & Happ & _).
  rewrite Hs in Hs'. simplify_eq.
  unfold simulated_approved, outcome. rewrite Hrun. simpl. by rewrite Happ.
Qed.

Lemma simulated_approved_none h df t ms lm tg :
  h !! df = Some t → empty t = true ∨ has_column "income_band" t = false →
  simulated_approved (create_strategy_simulation df ms lm tg h) = None.
Proof.
  intros Hh Hcase. unfold simulated_approved.
  by rewrite (outcome_none h df t).
Qed.

(** C6. For two policies that differ only in [min_score], the higher
    threshold never gives more simulated approved customers. On a
    non-empty table with the [income_band] column both runs report a
    count; otherwise neither does. *)
Theorem raising_min_score_never_adds_approvals
  h df t min_score1 min_score2 limit_multiplier income_targets :
  h !! df = Some t → (min_score1 ≤ min_score2)%Z →
  match
    simulated_approved
      (create_strategy_simulation df min_score1 limit_multiplier income_targets h),
    simulated_approved
      (create_strategy_simulation df min_score2 limit_multiplier income_targets h)
  with
  | Some n1, Some n2 => (n2 ≤ n1)%Z
  | None, None => empty t = true ∨ has_column "income_band" t = false
  | _, _ => False
  end.
Proof.
  intros Hh Hms.
  destruct (empty t) eqn:He.
  { rewrite !(simulated_approved_none h df t) by auto. auto. }
  destruct (has_column "income_band" t) eqn:Hc.
  - rewrite !(simulated_approved_run h df t) by done.
    by apply approved_working_copy_mono.
  - rewrite !(simulated_approved_none h df t) by auto. auto.
Qed.

Lemma raising_min_score_never_adds_approvals_witness :
  simulated_approved
    (create_strategy_simulation 0 500 1 all_bands (store_of boundary_scores))
    = Some 3%Z
  ∧ simulated_approved
      (create_strategy_simulation 0 650 1 all_bands (store_of boundary_scores))
    = Some 1%Z
  ∧ (1 ≤ 3)%Z.
Proof.
  split; [reflexivity|]. split; [reflexivity|].
  apply (raising_min_score_never_adds_approvals (store_of boundary_scores) 0
           boundary_scores 500 650 1 all_bands); [reflexivity|lia].
Defined.

(** ** The percentage change of the balance *)

Lemma signed_inf_cases q :
  signed_inf q = PInf ∨ signed_inf q = NInf ∨ signed_inf q = NaN.
Proof. unfold signed_inf. destruct (Qlt_bool 0 q), (Qlt_bool q 0); auto. Qed.

Lemma signed_inf_zero q : (q == 0)%Q → signed_inf q = NaN.
Proof.
  intros Hq. unfold signed_inf, Qlt_bool.
  assert (Qle_bool q 0 = true) as -> by (apply Qle_bool_iff; lra).
  assert (Qle_bool 0 q = true) as -> by (apply Qle_bool_iff; lra).
  done.
Qed.

Lemma pct_change_nonzero (a b : Q) :
  ¬ (b == 0)%Q →
  pct_change (VFloat (Fin a)) (VFloat (Fin b)) = Fin ((a - b) / b * 100).
Proof.
  intros Hb. unfold pct_change. simpl.
  destruct (Qeq_bool b 0) eqn:E; [|done].
  by apply Qeq_bool_iff in E.
Qed.

Lemma pct_change_zero (a b : Q) :
  (b == 0)%Q →
  (pct_change (VFloat (Fin a)) (VFloat (Fin b)) = NaN
   ∨ pct_change (VFloat (Fin a)) (VFloat (Fin b)) = PInf
   ∨ pct_change (VFloat (Fin a)) (VFloat (Fin b)) = NInf)
  ∧ ((a == 0)%Q → pct_change (VFloat (Fin a)) (VFloat (Fin b)) = NaN).
Proof.
  intros Hb. unfold pct_change. simpl.
  assert (Qeq_bool b 0 = true) as -> by by apply Qeq_bool_iff.
  split.
  - destruct (signed_inf_cases (a + - b)) as [ -> | [ -> | -> ] ]; auto.
  - intros Ha. rewrite signed_inf_zero; [done|lra].
Qed.

(** C7 (as the code has it). When the simulation shows a result (on a
    non-empty table with the [income_band] column, and only then), it
    reports the change of the portfolio balance as
    (simulated - baseline) / baseline * 100. The division has no guard:
    for a baseline of 0 no exception is raised and the reported value is
    NaN or an infinity, NaN when the simulated balance is 0 as well. *)
Theorem balance_change_formula h df t min_score limit_multiplier income_targets :
  h !! df = Some t →
  match
    outcome
      (create_strategy_simulation df min_score limit_multiplier income_targets h)
  with
  | Some sim =>
      ∃ simulated baseline,
        strategy_metrics sim !! "portfolio_balance"
          = Some (VFloat (Fin simulated))
        ∧ baseline_metrics sim !! "portfolio_balance"
          = Some (VFloat (Fin baseline))
        ∧ (¬ (baseline == 0)%Q →
             balance_change sim = Fin ((simulated - baseline) / baseline * 100))
        ∧ ((baseline == 0)%Q →
             balance_change sim = NaN ∨ balance_change sim = PInf
             ∨ balance_change sim = NInf)
        ∧ ((baseline == 0)%Q → (simulated == 0)%Q → balance_change sim = NaN)
  | None => empty t = true ∨ has_column "income_band" t = false
  end.
Proof.
  intros Hh.
  destruct (empty t) eqn:He.
  { rewrite (outcome_none h df t) by auto. auto. }
  destruct (has_column "income_band" t) eqn:Hc.
  2: { rewrite (outcome_none h df t) by auto. auto. }
  destruct (simulation_run h df t min_score limit_multiplier income_targets
              Hh He Hc) as (sim & b & s & Hrun & Hb & Hs & Hsb & Hss & Hchange).
  subst b s.
  pose proof (working_copy_empty min_score income_targets t) as He'.
  rewrite He in He'.
  destruct (metrics_fields t He) as (b' & Hb' & _ & _ & _ & Hbal & _).
  destruct (metrics_fields _ He') as (s' & Hs' & _ & _ & _ & Hsbal & _).
  rewrite Hb in Hb'. rewrite Hs in Hs'. simplify_eq.
  unfold outcome. rewrite Hrun. simpl.
  eexists _, _.
  split; [exact Hsbal|]. split; [exact Hbal|].
  rewrite Hchange. unfold series_sum.
  split; [apply pct_change_nonzero|].
  split; [apply pct_change_zero|].
  intros Hz. by apply pct_change_zero.
Qed.

Lemma balance_change_formula_witness :
  match
    outcome
      (create_strategy_simulation 0 500 1 all_bands (store_of boundary_scores))
  with
  | Some sim =>
      ∃ simulated baseline,
        strategy_metrics sim !! "portfolio_balance"
          = Some (VFloat (Fin simulated))
        ∧ baseline_metrics sim !! "portfolio_balance"
          = Some (VFloat (Fin baseline))
        ∧ (¬ (baseline == 0)%Q →
             balance_change sim = Fin ((simulated - baseline) / baseline * 100))
        ∧ ((baseline == 0)%Q →
             balance_change sim = NaN ∨ balance_change sim = PInf
             ∨ balance_change sim = NInf)
        ∧ ((baseline == 0)%Q → (simulated == 0)%Q → balance_change sim = NaN)
  | None =>
      empty boundary_scores = true
      ∨ has_column "income_band" boundary_scores = false
  end.
Proof.
  apply (balance_change_formula (store_of boundary_scores) 0 boundary_scores
           500 1 all_bands).
  reflexivity.
Defined.

(** C7 fails as stated: on a table whose only row is declined the
    baseline balance is 0 and the reported change is NaN. *)
Lemma balance_change_of_zero_baseline :
  (outcome (default_run declined_only)
     ≫= λ sim, baseline_metrics sim !! "portfolio_balance")
    = Some (VFloat (Fin 0))
  ∧ balance_change <$> outcome (default_run declined_only) = Some NaN.
Proof. split; reflexivity. Qed.

(** ** The limit multiplier *)

(** C9. The simulation does not read [limit_multiplier]: two runs that
    differ only in it return the same baseline metrics, simulated metrics
    and changes, and leave the same store. *)
Theorem limit_multiplier_is_not_used
  h df min_score limit_multiplier1 limit_multiplier2 income_targets :
  create_strategy_simulation df min_score limit_multiplier1 income_targets h
  = create_strategy_simulation df min_score limit_multiplier2 income_targets h.
Proof. reflexivity. Qed.

(** ** The policy only demotes *)


Lemma approved_working_copy_le ms tg t :
  (len (approved (working_copy ms tg t)) ≤ len (approved t))%Z.
Proof.
  unfold len. apply inj_le. simpl.
  rewrite <- (list_fmap_id (rows t)) at 2.
  apply filter_length_le. intros r. unfold id.
  destruct (eligible ms tg r); [done|by rewrite is_approved_declined].
Qed.


(** *** The sum of an int64 column *)













(** The conditions on the balances hold of that table, and the policy
    lowers its int64 portfolio balance from 400 to 300. *)
Example demotion_lowers_the_balance :
  int64_balances boundary_scores
  ∧ (Zsum (approved_balances boundary_scores) < 2 ^ 63)%Z
  ∧ portfolio_balance_int64 boundary_scores = 400%Z
  ∧ (portfolio_balance_int64
       <$> (default_run boundary_scores).2
             !! fresh (dom (store_of boundary_scores))) = Some 300%Z.
Proof.
  split; [|split; [done|split; reflexivity]].
  repeat constructor; eexists; (split; [reflexivity|lia]).
Qed.


(** * Further properties of the code *)

(** ** The metrics mapping *)

Lemma metrics_all_fields t :
  empty t = false →
  ∃ m, calculate_portfolio_metrics t = Ok m
    ∧ dom m = list_to_set metric_keys
    ∧ m !! "total_customers" = Some (VInt (len t))
    ∧ m !! "approved_customers" = Some (VInt (len (approved t)))
    ∧ m !! "approval_rate" =
        Some (VFloat (np_mul (Fin (inject_Z (len (approved t)) / inject_Z (len t)))
                             (Fin 100)))
    ∧ m !! "portfolio_balance" =
        Some (VFloat (series_sum (balance <$> rows (approved t))))
    ∧ m !! "total_limits" =
        Some (VFloat (series_sum (credit_limit <$> rows (approved t))))
    ∧ m !! "avg_utilization" =
        Some (VFloat (series_mean (utilization_rate <$> rows (approved t))))
    ∧ m !! "avg_credit_score" =
        Some (VFloat (series_mean (application_score <$> rows (approved t))))
    ∧ m !! "delinquency_rate" =
        Some (VFloat (pct_positive (delinquency_status <$> rows (approved t))))
    ∧ m !! "delinquent_customers" =
        Some (VInt (count_true (gt0 <$> (delinquency_status <$> rows (approved t)))))
    ∧ m !! "high_risk_customers" =
        Some (if has_column "risk_segment" t
              then VInt (len (select is_high_risk (approved t)))
              else VInt 0).
Proof.
  intros He. pose proof (empty_false_len t He) as Hlen.
  unfold calculate_portfolio_metrics. rewrite He.
  replace (0 <? len t)%Z with true by (symmetry; apply Z.ltb_lt; lia).
  unfold py_truediv.
  replace (len t =? 0)%Z with false by (symmetry; apply Z.eqb_neq; lia).
  eexists. split; [reflexivity|].
  split; [by rewrite dom_list_to_map_L|].
  repeat split; reflexivity.
Qed.

(** X1. [calculate_portfolio_metrics] never raises (the division for
    [approval_rate] is never reached with a zero divisor), and its result
    has no field for an empty table and exactly the ten metric fields
    otherwise, so that every [metrics[key]] with one of these keys
    succeeds on a non-empty table. *)
Theorem metrics_never_raise_and_have_ten_fields (t : DataFrame) :
  ∃ m, calculate_portfolio_metrics t = Ok m
    ∧ dom m = (if empty t then ∅ else list_to_set metric_keys)
    ∧ (empty t = false → ∀ key, key ∈ metric_keys → ∃ v, getitem m key = Ok v).
Proof.
  destruct (empty t) eqn:He.
  - exists ∅. split; [|done].
    unfold calculate_portfolio_metrics. by rewrite He.
  - destruct (metrics_all_fields t He) as (m & Hm & Hdom & _).
    exists m. split; [done|]. split; [done|].
    intros _ key Hkey. unfold getitem.
    assert (is_Some (m !! key)) as [v Hv].
    { apply elem_of_dom. rewrite Hdom. by apply elem_of_list_to_set. }
    rewrite Hv. by eexists.
Qed.

Lemma metrics_never_raise_and_have_ten_fields_witness :
  ∃ m, calculate_portfolio_metrics three_approved = Ok m
    ∧ dom m = (if empty three_approved then ∅ else list_to_set metric_keys)
    ∧ (empty three_approved = false →
       ∀ key, key ∈ metric_keys → ∃ v, getitem m key = Ok v).
Proof. apply (metrics_never_raise_and_have_ten_fields three_approved). Defined.

Lemma filter_length_bound {A} (p : A → bool) (l : list A) :
  (length (List.filter p l) ≤ length l)%nat.
Proof.
  induction l as [|x l IH]; [done|].
  simpl. destruct (p x); simpl; lia.
Qed.

Lemma len_select_le p t : (0 ≤ len (select p t) ≤ len t)%Z.
Proof.
  unfold len. simpl. pose proof (filter_length_bound p (rows t)). lia.
Qed.

(** X2. On a non-empty table the counts are ordered:
    0 <= [delinquent_customers] <= [approved_customers] <=
    [total_customers], 1 <= [total_customers], and
    0 <= [high_risk_customers] <= [approved_customers]; so the
    "current customers" figure [approved - delinquent] of the risk page is
    never negative. *)
Theorem metric_counts_are_ordered (t : DataFrame) :
  empty t = false →
  ∃ m total approved_ delinquent_ high_risk,
    calculate_portfolio_metrics t = Ok m
    ∧ m !! "total_customers" = Some (VInt total)
    ∧ m !! "approved_customers" = Some (VInt approved_)
    ∧ m !! "delinquent_customers" = Some (VInt delinquent_)
    ∧ m !! "high_risk_customers" = Some (VInt high_risk)
    ∧ (0 ≤ delinquent_ ≤ approved_)%Z
    ∧ (approved_ ≤ total)%Z
    ∧ (1 ≤ total)%Z
    ∧ (0 ≤ high_risk ≤ approved_)%Z
    ∧ (0 ≤ approved_ - delinquent_)%Z.
Proof.
  intros He.
  destruct (metrics_all_fields t He)
    as (m & Hm & _ & Htot & Happ & _ & _ & _ & _ & _ & _ & Hdel & Hhr).
  pose proof (empty_false_len t He).
  pose proof (len_select_le is_approved t) as Ha. fold (approved t) in Ha.
  pose proof (len_select_le (λ r, gt0 (delinquency_status r)) (approved t)) as Hd.
  pose proof (len_select_le is_high_risk (approved t)) as Hh.
  rewrite count_true_gt0 in Hdel.
  exists m, (len t), (len (approved t)),
    (len (select (λ r, gt0 (delinquency_status r)) (approved t))),
    (if has_column "risk_segment" t
     then len (select is_high_risk (approved t)) else 0%Z).
  split; [done|]. split; [done|]. split; [done|]. split; [exact Hdel|].
  split; [by rewrite Hhr; destruct (has_column _ _)|].
  split; [lia|]. split; [lia|]. split; [lia|].
  split; [destruct (has_column _ _); lia | lia].
Qed.

Lemma metric_counts_are_ordered_witness :
  ∃ m total approved_ delinquent_ high_risk,
    calculate_portfolio_metrics three_approved_one_declined = Ok m
    ∧ m !! "total_customers" = Some (VInt total)
    ∧ m !! "approved_customers" = Some (VInt approved_)
    ∧ m !! "delinquent_customers" = Some (VInt delinquent_)
    ∧ m !! "high_risk_customers" = Some (VInt high_risk)
    ∧ (0 ≤ delinquent_ ≤ approved_)%Z
    ∧ (approved_ ≤ total)%Z
    ∧ (1 ≤ total)%Z
    ∧ (0 ≤ high_risk ≤ approved_)%Z
    ∧ (0 ≤ approved_ - delinquent_)%Z.
Proof.
  apply (metric_counts_are_ordered three_approved_one_declined). reflexivity.
Defined.

Lemma pct_ratio_bounds (a n : Z) :
  (0 ≤ a ≤ n)%Z → (0 < n)%Z →
  (0 <= inject_Z a / inject_Z n * 100)%Q
  ∧ (inject_Z a / inject_Z n * 100 <= 100)%Q.
Proof.
  intros Ha Hn.
  assert (0 < inject_Z n)%Q as Hn'.
  { change 0%Q with (inject_Z 0). rewrite <- Zlt_Qlt. lia. }
  assert (0 <= inject_Z a)%Q as Ha0.
  { change 0%Q with (inject_Z 0). rewrite <- Zle_Qle. lia. }
  assert (inject_Z a <= inject_Z n)%Q as Han by (rewrite <- Zle_Qle; lia).
  assert (0 <= inject_Z a / inject_Z n)%Q as H0.
  { apply Qle_shift_div_l; [done|]. lra. }
  assert (inject_Z a / inject_Z n <= 1)%Q as H1.
  { apply Qle_shift_div_r; [done|]. lra. }
  split; lra.
Qed.

(** X3. On a non-empty table [approval_rate] is a finite number between 0
    and 100, and when at least one row is approved so is
    [delinquency_rate]: neither is NaN, infinite or out of range. *)
Theorem rates_are_percentages (t : DataFrame) :
  empty t = false →
  ∃ m rate,
    calculate_portfolio_metrics t = Ok m
    ∧ m !! "approval_rate" = Some (VFloat (Fin rate))
    ∧ (0 <= rate)%Q ∧ (rate <= 100)%Q
    ∧ ((0 < len (approved t))%Z →
       ∃ d, m !! "delinquency_rate" = Some (VFloat (Fin d))
            ∧ (0 <= d)%Q ∧ (d <= 100)%Q).
Proof.
  intros He.
  destruct (metrics_all_fields t He)
    as (m & Hm & _ & _ & _ & Hrate & _ & _ & _ & _ & Hdel & _).
  pose proof (empty_false_len t He) as Hlen.
  pose proof (len_select_le is_approved t) as Ha. fold (approved t) in Ha.
  destruct (pct_ratio_bounds (len (approved t)) (len t)) as [Hr0 Hr1]; [lia..|].
  exists m, (inject_Z (len (approved t)) / inject_Z (len t) * 100)%Q.
  split; [done|]. split; [exact Hrate|]. split; [done|]. split; [done|].
  intros Hpos.
  pose proof (len_select_le (λ r, gt0 (delinquency_status r)) (approved t)) as Hd.
  destruct (pct_ratio_bounds
              (len (select (λ r, gt0 (delinquency_status r)) (approved t)))
              (len (approved t))) as [Hd0 Hd1]; [lia..|].
  eexists. split; [|split; [exact Hd0|exact Hd1]].
  rewrite Hdel, pct_positive_cons; [done|].
  intros Hnil. unfold len in Hpos. rewrite Hnil in Hpos. simpl in Hpos. lia.
Qed.

Lemma rates_are_percentages_witness :
  ∃ m rate,
    calculate_portfolio_metrics three_approved_one_declined = Ok m
    ∧ m !! "approval_rate" = Some (VFloat (Fin rate))
    ∧ (0 <= rate)%Q ∧ (rate <= 100)%Q
    ∧ ((0 < len (approved three_approved_one_declined))%Z →
       ∃ d, m !! "delinquency_rate" = Some (VFloat (Fin d))
            ∧ (0 <= d)%Q ∧ (d <= 100)%Q).
Proof.
  apply (rates_are_percentages three_approved_one_declined). reflexivity.
Defined.

(** X4. Rows that are not Approved take no part in the aggregates: two
    non-empty tables with the same columns and the same approved rows get
    the same value for every field except [total_customers] and
    [approval_rate]. *)
Theorem declined_rows_do_not_change_aggregates (t1 t2 : DataFrame) :
  empty t1 = false → empty t2 = false →
  columns t1 = columns t2 →
  rows (approved t1) = rows (approved t2) →
  ∃ m1 m2,
    calculate_portfolio_metrics t1 = Ok m1
    ∧ calculate_portfolio_metrics t2 = Ok m2
    ∧ ∀ key, key ∈ approved_only_keys → m1 !! key = m2 !! key.
Proof.
  intros He1 He2 Hcol Hrows.
  assert (Happ : approved t1 = approved t2).
  { unfold approved, select in *. simpl in Hrows. by rewrite Hcol, Hrows. }
  assert (Hseg : has_column "risk_segment" t1 = has_column "risk_segment" t2).
  { unfold has_column. by rewrite Hcol. }
  destruct (metrics_all_fields t1 He1)
    as (m1 & Hm1 & _ & _ & A1 & _ & B1 & C1 & D1 & E1 & F1 & G1 & H1).
  destruct (metrics_all_fields t2 He2)
    as (m2 & Hm2 & _ & _ & A2 & _ & B2 & C2 & D2 & E2 & F2 & G2 & H2).
  exists m1, m2. split; [done|]. split; [done|].
  intros key Hkey. unfold approved_only_keys in Hkey.
  rewrite Happ, ?Hseg in *.
  repeat (apply elem_of_cons in Hkey as [->|Hkey]; [congruence|]).
  by apply elem_of_nil in Hkey.
Qed.

Lemma declined_rows_do_not_change_aggregates_witness :
  ∃ m1 m2,
    calculate_portfolio_metrics three_approved = Ok m1
    ∧ calculate_portfolio_metrics three_approved_one_declined = Ok m2
    ∧ ∀ key, key ∈ approved_only_keys → m1 !! key = m2 !! key.
Proof.
  apply (declined_rows_do_not_change_aggregates three_approved
           three_approved_one_declined); reflexivity.
Defined.

Lemma filter_Permutation {A} (p : A → bool) (l1 l2 : list A) :
  l1 ≡ₚ l2 → List.filter p l1 ≡ₚ List.filter p l2.
Proof.
  induction 1 as [|x l1 l2 H IH|x y l|l1 l2 l3 H12 IH12 H23 IH23]; simpl.
  - done.
  - destruct (p x); [by constructor|done].
  - destruct (p x), (p y); try done. apply Permutation_swap.
  - by etransitivity.
Qed.

Lemma len_select_Permutation p t1 t2 :
  rows t1 ≡ₚ rows t2 → len (select p t1) = len (select p t2).
Proof.
  intros H. unfold len. simpl. f_equal.
  apply Permutation_length. by apply filter_Permutation.
Qed.

(** X5. The order of the rows is irrelevant for the counts: two tables
    with the same columns whose rows are a permutation of each other get
    the same [total_customers], [approved_customers], [approval_rate],
    [delinquent_customers] and [high_risk_customers]. *)
Theorem counts_do_not_depend_on_row_order (t1 t2 : DataFrame) :
  columns t1 = columns t2 →
  rows t1 ≡ₚ rows t2 →
  ∃ m1 m2,
    calculate_portfolio_metrics t1 = Ok m1
    ∧ calculate_portfolio_metrics t2 = Ok m2
    ∧ ∀ key, key ∈ order_free_keys → m1 !! key = m2 !! key.
Proof.
  intros Hcol Hperm.
  assert (Hlen : len t1 = len t2).
  { unfold len. f_equal. by apply Permutation_length. }
  assert (Hemp : empty t1 = empty t2).
  { unfold empty. rewrite Hcol.
    destruct (rows t1) as [|r1 l1] eqn:E1, (rows t2) as [|r2 l2] eqn:E2;
      try done.
    - by apply Permutation_nil_cons in Hperm.
    - symmetry in Hperm. by apply Permutation_nil_cons in Hperm. }
  destruct (empty t1) eqn:He1.
  { exists ∅, ∅. unfold calculate_portfolio_metrics.
    by rewrite He1, <- Hemp. }
  symmetry in Hemp.
  destruct (metrics_all_fields t1 He1)
    as (m1 & Hm1 & _ & T1 & A1 & R1 & _ & _ & _ & _ & _ & D1 & H1).
  destruct (metrics_all_fields t2 Hemp)
    as (m2 & Hm2 & _ & T2 & A2 & R2 & _ & _ & _ & _ & _ & D2 & H2).
  assert (Ha : len (approved t1) = len (approved t2))
    by by apply len_select_Permutation.
  assert (Hd : count_true (gt0 <$> (delinquency_status <$> rows (approved t1)))
             = count_true (gt0 <$> (delinquency_status <$> rows (approved t2)))).
  { rewrite !count_true_gt0. f_equal. apply Permutation_length.
    apply filter_Permutation. simpl. by apply filter_Permutation. }
  assert (Hh : len (select is_high_risk (approved t1))
             = len (select is_high_risk (approved t2))).
  { apply len_select_Permutation. simpl. by apply filter_Permutation. }
  assert (Hseg : has_column "risk_segment" t1 = has_column "risk_segment" t2).
  { unfold has_column. by rewrite Hcol. }
  exists m1, m2. split; [done|]. split; [done|].
  intros key Hkey. unfold order_free_keys in Hkey.
  rewrite Hlen, Ha in *. rewrite Hd in D1. rewrite Hh, Hseg in H1.
  repeat (apply elem_of_cons in Hkey as [->|Hkey]; [congruence|]).
  by apply elem_of_nil in Hkey.
Qed.

Lemma counts_do_not_depend_on_row_order_witness :
  ∃ m1 m2,
    calculate_portfolio_metrics three_approved = Ok m1
    ∧ calculate_portfolio_metrics three_approved_reversed = Ok m2
    ∧ ∀ key, key ∈ order_free_keys → m1 !! key = m2 !! key.
Proof.
  apply (counts_do_not_depend_on_row_order three_approved
           three_approved_reversed); [reflexivity|].
  symmetry. apply (reverse_Permutation (rows three_approved)).
Defined.

(** ** Score bands *)

Lemma Qlt_bool_true a b : Qlt_bool a b = true ↔ (a < b)%Q.
Proof.
  unfold Qlt_bool. rewrite negb_true_iff, <- not_true_iff_false, Qle_bool_iff.
  split; [apply Qnot_le_lt | apply Qlt_not_le].
Qed.

Lemma Qlt_bool_false a b : Qlt_bool a b = false ↔ (b <= a)%Q.
Proof.
  unfold Qlt_bool. by rewrite negb_false_iff, Qle_bool_iff.
Qed.

(** Turns the boolean tests of a bin into (in)equalities. *)
Ltac bin_tests :=
  repeat match goal with
  | H : _ && _ = true |- _ => apply andb_true_iff in H as [? ?]
  | H : _ && _ = false |- _ => apply andb_false_iff in H as [?|?]
  | H : Qlt_bool _ _ = true |- _ => apply Qlt_bool_true in H
  | H : Qlt_bool _ _ = false |- _ => apply Qlt_bool_false in H
  | H : Qle_bool _ _ = true |- _ => apply Qle_bool_iff in H
  | H : Qle_bool _ _ = false |- _ =>
      apply not_true_iff_false in H; rewrite Qle_bool_iff in H
  end.

Lemma cut_value_score (s : Q) :
  (cut_value s score_bins score_labels = Some "<500" ↔ (0 < s)%Q ∧ (s <= 500)%Q)
  ∧ (cut_value s score_bins score_labels = Some "500-599"
       ↔ (500 < s)%Q ∧ (s <= 600)%Q)
  ∧ (cut_value s score_bins score_labels = Some "600-649"
       ↔ (600 < s)%Q ∧ (s <= 650)%Q)
  ∧ (cut_value s score_bins score_labels = Some "650-699"
       ↔ (650 < s)%Q ∧ (s <= 700)%Q)
  ∧ (cut_value s score_bins score_labels = Some "700-749"
       ↔ (700 < s)%Q ∧ (s <= 750)%Q)
  ∧ (cut_value s score_bins score_labels = Some "750+"
       ↔ (750 < s)%Q ∧ (s <= 900)%Q)
  ∧ (cut_value s score_bins score_labels = None ↔ (s <= 0)%Q ∨ (900 < s)%Q).
Proof.
  unfold score_bins, score_labels. simpl.
  destruct (Qlt_bool 0 s && Qle_bool s 500) eqn:E1;
  [|destruct (Qlt_bool 500 s && Qle_bool s 600) eqn:E2;
  [|destruct (Qlt_bool 600 s && Qle_bool s 650) eqn:E3;
  [|destruct (Qlt_bool 650 s && Qle_bool s 700) eqn:E4;
  [|destruct (Qlt_bool 700 s && Qle_bool s 750) eqn:E5;
  [|destruct (Qlt_bool 750 s && Qle_bool s 900) eqn:E6]]]]];
  bin_tests;
  repeat split; intros; try done; try lra;
  repeat match goal with H : _ ∧ _ |- _ => destruct H end;
  repeat match goal with H : _ ∨ _ |- _ => destruct H end;
  try lra.
Qed.

(** X6. The score bands are the right-closed intervals of [pd.cut]:
    a score [s] is in the band labelled "<500" iff 0 < s <= 500, in
    "500-599" iff 500 < s <= 600, in "600-649" iff 600 < s <= 650, in
    "650-699" iff 650 < s <= 700, in "700-749" iff 700 < s <= 750, in
    "750+" iff 750 < s <= 900, and in no band iff s <= 0 or s > 900; a row
    without a score is in no band. *)
Theorem score_bands_are_right_closed (r : Row) :
  match application_score r with
  | Some s =>
      (score_band r = Some "<500" ↔ (0 < s)%Q ∧ (s <= 500)%Q)
      ∧ (score_band r = Some "500-599" ↔ (500 < s)%Q ∧ (s <= 600)%Q)
      ∧ (score_band r = Some "600-649" ↔ (600 < s)%Q ∧ (s <= 650)%Q)
      ∧ (score_band r = Some "650-699" ↔ (650 < s)%Q ∧ (s <= 700)%Q)
      ∧ (score_band r = Some "700-749" ↔ (700 < s)%Q ∧ (s <= 750)%Q)
      ∧ (score_band r = Some "750+" ↔ (750 < s)%Q ∧ (s <= 900)%Q)
      ∧ (score_band r = None ↔ (s <= 0)%Q ∨ (900 < s)%Q)
  | None => score_band r = None
  end.
Proof.
  unfold score_band, cut. destruct (application_score r) as [s|]; [|done].
  apply cut_value_score.
Qed.

Lemma cut_value_label x bins labels lab :
  cut_value x bins labels = Some lab → lab ∈ labels.
Proof.
  revert labels. induction bins as [|lo bins IH]; intros labels; [done|].
  destruct bins as [|hi bins]; [done|].
  destruct labels as [|l labels]; [done|].
  cbn [cut_value].
  destruct (Qlt_bool lo x && Qle_bool x hi).
  - intros [= ->]. apply list_elem_of_here.
  - intros H. apply list_elem_of_further. by apply IH.
Qed.

Lemma omap_labels_sublist {A B} (f : A → option B) (g : B → A) (l : list A) :
  (∀ x y, f x = Some y → g y = x) → g <$> omap f l `sublist_of` l.
Proof.
  intros Hfg. induction l as [|x l IH]; [done|].
  cbn. destruct (f x) as [y|] eqn:E.
  - cbn. rewrite (Hfg x y E). by constructor.
  - by constructor.
Qed.

(** X7. The band table has at most one line per band, in the order of
    the labels, and no line for a band without rows: every line counts at
    least one customer (the approved rows of that band) and its
    delinquency rate is a finite number between 0 and 100, never NaN. *)
Theorem band_table_lines_are_observed_bands (df : DataFrame) :
  (λ e, fst (fst e)) <$> risk_by_score df `sublist_of` score_labels
  ∧ ∀ lab n rate, (lab, n, rate) ∈ risk_by_score df →
      n = len (select (in_band lab) (approved df))
      ∧ (1 ≤ n ≤ len (approved df))%Z
      ∧ ∃ q, rate = Fin q ∧ (0 <= q)%Q ∧ (q <= 100)%Q.
Proof.
  unfold risk_by_score. split.
  - apply omap_labels_sublist. intros lab e.
    destruct (rows (select (in_band lab) (approved df))); [done|].
    by intros [= <-].
  - intros lab n rate Hin.
    apply list_elem_of_omap in Hin as (lab' & _ & Hline).
    set (group := select (in_band lab') (approved df)) in *.
    destruct (rows group) as [|r0 l0] eqn:Hrows; [done|].
    injection Hline as <- <- <-.
    pose proof (len_select_le (in_band lab') (approved df)) as Hle.
    fold group in Hle.
    assert (Hpos : (1 ≤ len group)%Z).
    { unfold len. rewrite Hrows. simpl. lia. }
    split; [done|]. split; [lia|].
    pose proof (len_select_le (λ r, gt0 (delinquency_status r)) group) as Hd.
    destruct (pct_ratio_bounds
                (len (select (λ r, gt0 (delinquency_status r)) group))
                (len group)) as [Hd0 Hd1]; [lia..|].
    eexists. split; [|split; [exact Hd0|exact Hd1]].
    change (delinquency_status r0 :: list_fmap Row (option Q) delinquency_status l0)
      with (delinquency_status <$> (r0 :: l0)).
    rewrite <- Hrows. rewrite pct_positive_cons; [done|].
    by rewrite Hrows.
Qed.

Lemma score_band_on_scale r :
  on_scale r = match score_band r with Some _ => true | None => false end.
Proof.
  unfold on_scale, score_band, cut.
  destruct (application_score r) as [s|]; [|done].
  change (Some s ≫= λ x, cut_value x score_bins score_labels)
    with (cut_value s score_bins score_labels).
  destruct (cut_value_score s) as (H1 & H2 & H3 & H4 & H5 & H6 & H0).
  destruct (cut_value s score_bins score_labels) as [lab|] eqn:E.
  - apply andb_true_iff. rewrite Qlt_bool_true, Qle_bool_iff.
    destruct (Qlt_le_dec 0 s) as [?|Hle]; [|].
    2: { assert (@None string = None → False) as []; [|done].
         intros _. destruct H0 as [_ H0]. by specialize (H0 (or_introl Hle)). }
    destruct (Qlt_le_dec 900 s) as [Hgt|?]; [|done].
    destruct H0 as [_ H0]. by specialize (H0 (or_intror Hgt)).
  - destruct H0 as [H0 _]. specialize (H0 eq_refl).
    apply andb_false_iff. rewrite Qlt_bool_false.
    rewrite <- not_true_iff_false, Qle_bool_iff.
    destruct H0; [by left|right]. by apply Qlt_not_le.
Qed.

Lemma score_band_label r lab : score_band r = Some lab → lab ∈ score_labels.
Proof.
  unfold score_band, cut. destruct (application_score r) as [s|]; [|done].
  apply cut_value_label.
Qed.

Lemma customers_in_bands_groups (df : DataFrame) :
  customers_in_bands (risk_by_score df)
  = foldr Z.add 0%Z
      ((λ lab, len (select (in_band lab) (approved df))) <$> score_labels).
Proof.
  unfold customers_in_bands, risk_by_score.
  induction score_labels as [|lab labs IH]; [done|].
  assert (Hlen : len (select (in_band lab) (approved df))
                 = Z.of_nat (length (rows (select (in_band lab) (approved df)))))
    by done.
  rewrite fmap_cons. cbn [foldr]. rewrite <- IH, Hlen. clear IH Hlen.
  cbn [omap list_omap].
  destruct (rows (select (in_band lab) (approved df))) eqn:E; [done|].
  rewrite fmap_cons. cbn [foldr fst snd]. f_equal.
  unfold len. by rewrite E.
Qed.

Lemma band_counts_partition (l : list Row) :
  foldr Z.add 0%Z
    ((λ lab, Z.of_nat (length (List.filter (in_band lab) l))) <$> score_labels)
  = Z.of_nat (length (List.filter on_scale l)).
Proof.
  induction l as [|r l IH]; [done|].
  unfold score_labels in *. cbn in IH |- *.
  rewrite (score_band_on_scale r). unfold in_band in IH |- *.
  destruct (score_band r) as [b|] eqn:E.
  - apply score_band_label in E as Hb. unfold score_labels in Hb.
    repeat (apply elem_of_cons in Hb as [->|Hb];
            [repeat case_bool_decide; simplify_eq; cbn; lia|]).
    by apply elem_of_nil in Hb.
  - repeat case_bool_decide; simplify_eq. exact IH.
Qed.

(** X8. The [customers] column of the band table adds up to the number of
    approved rows whose score lies in (0, 900]; approved rows with a
    score of 0 or less, above 900, or without a score are in no line. *)
Theorem band_table_counts_rows_on_scale (df : DataFrame) :
  customers_in_bands (risk_by_score df) = len (select on_scale (approved df))
  ∧ ∀ r, on_scale r = true
         ↔ ∃ s, application_score r = Some s ∧ (0 < s)%Q ∧ (s <= 900)%Q.
Proof.
  split.
  - rewrite customers_in_bands_groups. unfold len. simpl.
    apply band_counts_partition.
  - intros r. unfold on_scale. destruct (application_score r) as [s|].
    + rewrite andb_true_iff, Qlt_bool_true, Qle_bool_iff.
      split; [intros [? ?]; by exists s | by intros (? & [= <-] & ? & ?)].
    + split; [done | by intros (? & ? & _)].
Qed.

(** Of four approved rows, only the one with score 700 is on the scale; it
    is counted in the band that ends at 700. *)
Example off_scale_rows_are_dropped :
  (λ e, (e.1.1, e.1.2)) <$> risk_by_score off_scale_scores = [("650-699", 1%Z)]
  ∧ len (approved off_scale_scores) = 4%Z.
Proof. split; reflexivity. Qed.

(** ** Delinquency status distribution *)

Lemma count_value_keys x counts y :
  y ∈ fst <$> count_value x counts → y = x ∨ y ∈ fst <$> counts.
Proof.
  induction counts as [|[z n] counts IH]; csimpl.
  - intros H. apply list_elem_of_singleton in H. by left.
  - destruct (x ?= z)%Q; csimpl.
    + by right.
    + intros H. apply elem_of_cons in H as [->|H]; [by left|by right].
    + intros H. apply elem_of_cons in H as [->|H].
      * right. apply list_elem_of_here.
      * destruct (IH H) as [->|?]; [by left|right].
        by apply list_elem_of_further.
Qed.

Lemma count_value_sorted x counts :
  StronglySorted Qlt (fst <$> counts) →
  StronglySorted Qlt (fst <$> count_value x counts).
Proof.
  induction counts as [|[z n] counts IH]; csimpl; intros Hs.
  - repeat constructor.
  - apply StronglySorted_inv in Hs as [Hs Hall].
    destruct (x ?= z)%Q eqn:E; csimpl.
    + by constructor.
    + apply Qlt_alt in E. constructor; [by constructor|].
      constructor; [done|].
      eapply Forall_impl; [exact Hall|]. intros y Hy. csimpl in *.
      by apply Qlt_trans with z.
    + apply Qgt_alt in E. constructor; [by apply IH|].
      apply Forall_forall. intros y Hy.
      apply count_value_keys in Hy as [->|Hy]; [done|].
      by apply (proj1 (Forall_forall _ _) Hall).
Qed.

Lemma count_value_positive x counts :
  Forall (λ e, (1 ≤ e.2)%Z) counts →
  Forall (λ e, (1 ≤ e.2)%Z) (count_value x counts).
Proof.
  induction 1 as [|[z n] counts Hn Hall IH]; csimpl.
  - by repeat constructor.
  - destruct (x ?= z)%Q; repeat constructor; csimpl in *; try done. lia.
Qed.

Lemma count_value_total x counts :
  foldr Z.add 0%Z (snd <$> count_value x counts)
  = (foldr Z.add 0%Z (snd <$> counts) + 1)%Z.
Proof.
  induction counts as [|[z n] counts IH]; csimpl; [done|].
  destruct (x ?= z)%Q; csimpl; [lia|lia|]. rewrite IH. lia.
Qed.

(** The count kept for the value [y]. *)
Lemma count_value_entry x counts y :
  foldr Z.add 0%Z
    (snd <$> List.filter (λ e, Qeq_bool e.1 y) (count_value x counts))
  = (foldr Z.add 0%Z (snd <$> List.filter (λ e, Qeq_bool e.1 y) counts)
     + if Qeq_bool x y then 1 else 0)%Z.
Proof.
  induction counts as [|[z n] counts IH]; csimpl.
  - destruct (Qeq_bool x y); csimpl; lia.
  - destruct (x ?= z)%Q eqn:E; csimpl.
    + apply Qeq_alt in E.
      assert (Qeq_bool z y = Qeq_bool x y) as ->.
      { apply eq_true_iff_eq. rewrite !Qeq_bool_iff. by rewrite E. }
      destruct (Qeq_bool x y); csimpl; lia.
    + destruct (Qeq_bool x y), (Qeq_bool z y); csimpl; lia.
    + destruct (Qeq_bool z y); csimpl; rewrite IH; lia.
Qed.

Lemma sorted_entry_unique (counts : list (Q * Z)) x n :
  StronglySorted Qlt (fst <$> counts) → (x, n) ∈ counts →
  foldr Z.add 0%Z (snd <$> List.filter (λ e, Qeq_bool e.1 x) counts) = n.
Proof.
  induction counts as [|[z k] counts IH]; csimpl; intros Hs Hin.
  - by apply elem_of_nil in Hin.
  - apply StronglySorted_inv in Hs as [Hs Hall].
    assert (Hrest : ∀ y m, (y, m) ∈ counts → (z < y)%Q).
    { intros y m Hy. apply (proj1 (Forall_forall _ _) Hall).
      apply list_elem_of_fmap. by exists (y, m). }
    apply elem_of_cons in Hin as [[= <- <-]|Hin].
    + assert (Qeq_bool x x = true) as -> by by apply Qeq_bool_iff.
      csimpl.
      assert (List.filter (λ e, Qeq_bool e.1 x) counts = []) as ->; [|csimpl; lia].
      clear IH Hs Hall. induction counts as [|[y m] counts IH']; [done|].
      csimpl. assert (Qeq_bool y x = false) as ->.
      { apply not_true_iff_false. rewrite Qeq_bool_iff. intros Heq.
        specialize (Hrest y m (list_elem_of_here _ _)). lra. }
      apply IH'. intros y' m' H'. apply (Hrest y' m').
      by apply list_elem_of_further.
    + assert (Qeq_bool z x = false) as ->.
      { apply not_true_iff_false. rewrite Qeq_bool_iff. intros Heq.
        specialize (Hrest x n Hin). lra. }
      by apply IH.
Qed.

Lemma value_counts_invariants (l : list Q) :
  let counts := foldr count_value [] l in
  StronglySorted Qlt (fst <$> counts)
  ∧ Forall (λ e, (1 ≤ e.2)%Z) counts
  ∧ foldr Z.add 0%Z (snd <$> counts) = Z.of_nat (length l)
  ∧ ∀ y, foldr Z.add 0%Z (snd <$> List.filter (λ e, Qeq_bool e.1 y) counts)
         = Z.of_nat (length (List.filter (λ v, Qeq_bool v y) l)).
Proof.
  induction l as [|x l (Hs & Hp & Ht & He)]; csimpl.
  - repeat split; constructor.
  - split; [by apply count_value_sorted|].
    split; [by apply count_value_positive|].
    split; [rewrite count_value_total, Ht; lia|].
    intros y. rewrite count_value_entry, He.
    destruct (Qeq_bool x y); csimpl; lia.
Qed.

(** X9. The delinquency distribution lists each status that occurs among
    the approved rows once, in ascending order, with the number of approved
    rows that have it (at least 1); the counts add up to the number of
    approved rows with a status. The four names are attached by position:
    there are [min(4, k)] labels for [k] distinct statuses. *)
Theorem delinquency_counts_by_status (df : DataFrame) :
  StronglySorted Qlt (fst <$> delinq_counts df)
  ∧ (∀ x n, (x, n) ∈ delinq_counts df →
       (1 ≤ n)%Z
       ∧ n = occurrences x (delinquency_status <$> rows (approved df)))
  ∧ foldr Z.add 0%Z (snd <$> delinq_counts df)
    = Z.of_nat (length (notna (delinquency_status <$> rows (approved df))))
  ∧ length (delinq_labels df) = (length (delinq_counts df) `min` 4)%nat.
Proof.
  unfold delinq_labels, delinq_counts, value_counts_sort_index, occurrences.
  destruct (value_counts_invariants
              (notna (delinquency_status <$> rows (approved df))))
    as (Hs & Hp & Ht & He).
  split; [done|]. split; [|split; [done|]].
  - intros x n Hin. split.
    + by apply (proj1 (Forall_forall _ _) Hp (x, n)).
    + rewrite <- He. symmetry. by apply sorted_entry_unique.
  - by rewrite length_take.
Qed.

(** With the statuses 0 and 2 only, the second label, "30 DPD", is the one
    of the bar for status 2; with five statuses there are four labels for
    five bars. *)
Example delinquency_labels_by_position :
  delinq_counts statuses_0_2 = [(0%Q, 2%Z); (2%Q, 1%Z)]
  ∧ delinq_labels statuses_0_2 = ["Current"; "30 DPD"]
  ∧ length (delinq_counts five_statuses) = 5%nat
  ∧ length (delinq_labels five_statuses) = 4%nat.
Proof. repeat split; reflexivity. Qed.

(** ** The high-risk page *)

Lemma high_risk_df_rows (df : DataFrame) (mb ms mu : Q) :
  rows (high_risk_df df mb ms mu)
  ≡ₚ List.filter (high_risk_mask mb ms mu) (List.filter is_approved (rows df)).
Proof.
  unfold high_risk_df.
  destruct (has_column "risk_score" _); apply sort_values_Permutation.
Qed.

Lemma ge_cell_mono c x y : (x <= y)%Q → ge_cell c y = true → ge_cell c x = true.
Proof.
  destruct c as [q|]; simpl; [|done].
  rewrite !Qle_bool_iff. intros Hxy Hy. by apply Qle_trans with y.
Qed.

Lemma le_cell_mono c x y : (x <= y)%Q → le_cell c x = true → le_cell c y = true.
Proof.
  destruct c as [q|]; simpl; [|done].
  rewrite !Qle_bool_iff. intros Hxy Hx. by apply Qle_trans with x.
Qed.

Lemma high_risk_mask_mono mb mb' ms ms' mu mu' r :
  (mb <= mb')%Q → (ms' <= ms)%Q → (mu <= mu')%Q →
  high_risk_mask mb' ms' mu' r = true → high_risk_mask mb ms mu r = true.
Proof.
  intros Hb Hs Hu. unfold high_risk_mask. rewrite !andb_true_iff.
  intros [[H1 H2] H3]. repeat split.
  - by apply ge_cell_mono with mb'.
  - by apply le_cell_mono with ms'.
  - by apply ge_cell_mono with mu'.
Qed.

(** X10. Tightening the filters of the high-risk page (a higher minimum
    balance, a lower maximum score, a higher minimum utilization) never
    adds a customer: every row listed under the stricter thresholds is
    listed under the looser ones, and the number identified does not
    grow. *)
Theorem stricter_thresholds_list_fewer
  (df : DataFrame) (mb mb' ms ms' mu mu' : Q) :
  (mb <= mb')%Q → (ms' <= ms)%Q → (mu <= mu')%Q →
  (∀ r, r ∈ rows (high_risk_df df mb' ms' mu') →
        r ∈ rows (high_risk_df df mb ms mu))
  ∧ (len (high_risk_df df mb' ms' mu') ≤ len (high_risk_df df mb ms mu))%Z.
Proof.
  intros Hb Hs Hu. split.
  - intros r. rewrite !high_risk_df_rows, !list_elem_of_In, !filter_In.
    intros [Hin Hmask]. split; [done|].
    by apply (high_risk_mask_mono mb mb' ms ms' mu mu').
  - unfold len. apply inj_le.
    rewrite (Permutation_length (high_risk_df_rows df mb' ms' mu')).
    rewrite (Permutation_length (high_risk_df_rows df mb ms mu)).
    set (l := List.filter is_approved (rows df)).
    rewrite <- (list_fmap_id l).
    apply filter_length_le. intros r. unfold id.
    by apply high_risk_mask_mono.
Qed.

Lemma stricter_thresholds_list_fewer_witness :
  (∀ r, r ∈ rows (high_risk_df tie_break_fixture 2000 620 65) →
        r ∈ rows (high_risk_df tie_break_fixture 1000 650 50))
  ∧ (len (high_risk_df tie_break_fixture 2000 620 65)
     ≤ len (high_risk_df tie_break_fixture 1000 650 50))%Z.
Proof.
  apply (stricter_thresholds_list_fewer tie_break_fixture 1000 2000 650 620 50 65);
    vm_compute; discriminate.
Defined.

Lemma desc_cmp_Eq_compat x a b :
  desc_cmp x a = Eq → desc_cmp x b = desc_cmp a b.
Proof.
  destruct x as [x|], a as [a|], b as [b|]; simpl; try done.
  intros H. apply Qeq_alt in H. by rewrite H.
Qed.

Lemma lex_cmp_Eq_compat by_ x a b :
  lex_cmp by_ x a = Eq → lex_cmp by_ x b = lex_cmp by_ a b.
Proof.
  induction by_ as [|k ks IH]; simpl; [done|].
  destruct (desc_cmp (k x) (k a)) eqn:E; try done.
  intros H. rewrite (desc_cmp_Eq_compat _ _ (k b) E).
  destruct (desc_cmp (k a) (k b)); [by apply IH|done|done].
Qed.

Lemma insert_row_stable by_ x r l :
  List.filter (same_keys by_ x) (insert_row by_ r l)
  = List.filter (same_keys by_ x) (r :: l).
Proof.
  induction l as [|r' l IH]; [done|].
  cbn [insert_row]. destruct (precedes by_ r r') eqn:Hp; [done|].
  cbn [List.filter] in IH |- *. rewrite IH.
  destruct (same_keys by_ x r) eqn:Hr; [|done].
  assert (same_keys by_ x r' = false) as ->; [|done].
  unfold same_keys, precedes in *.
  destruct (lex_cmp by_ x r) eqn:E; try done.
  rewrite (lex_cmp_Eq_compat by_ x r r' E).
  by destruct (lex_cmp by_ r r').
Qed.

Lemma sort_values_stable by_ x df :
  List.filter (same_keys by_ x) (rows (sort_values by_ df))
  = List.filter (same_keys by_ x) (rows df).
Proof.
  simpl. induction (rows df) as [|r l IH]; [done|].
  cbn [foldr]. rewrite insert_row_stable. cbn [List.filter]. by rewrite IH.
Qed.

(** X11. The fallback ranking is stable: on a table without a
    [risk_score] column, listed customers with the same
    [delinquency_status] and the same [utilization_rate] keep the order
    they have in the table. *)
Theorem fallback_ranking_keeps_table_order_of_ties
  (df : DataFrame) (mb ms mu : Q) (x : Row) :
  has_column "risk_score" df = false →
  List.filter (same_keys [delinquency_status; utilization_rate] x)
    (rows (high_risk_df df mb ms mu))
  = List.filter (same_keys [delinquency_status; utilization_rate] x)
      (List.filter (high_risk_mask mb ms mu)
         (List.filter is_approved (rows df))).
Proof.
  intros Hc. unfold high_risk_df.
  change (has_column "risk_score"
            (select (high_risk_mask mb ms mu) (approved df)))
    with (has_column "risk_score" df).
  rewrite Hc. apply sort_values_stable.
Qed.

Lemma fallback_ranking_keeps_table_order_of_ties_witness :
  List.filter
    (same_keys [delinquency_status; utilization_rate] (ranked_row 0 1 60))
    (rows (high_risk_df equal_keys_fixture 1000 650 50))
  = List.filter
      (same_keys [delinquency_status; utilization_rate] (ranked_row 0 1 60))
      (List.filter (high_risk_mask 1000 650 50)
         (List.filter is_approved (rows equal_keys_fixture))).
Proof.
  apply (fallback_ranking_keeps_table_order_of_ties equal_keys_fixture
           1000 650 50 (ranked_row 0 1 60)).
  reflexivity.
Defined.

(** The ties of [equal_keys_fixture] in the listing: 2 before 4, 1 before
    3. *)
Example equal_keys_order :
  customer_id <$> rows (high_risk_df equal_keys_fixture 1000 650 50)
  = [2; 4; 1; 3]%Z.
Proof. reflexivity. Qed.

Lemma count_true_bound (bs : list bool) :
  (0 ≤ count_true bs ≤ Z.of_nat (length bs))%Z.
Proof.
  unfold count_true. pose proof (filter_length_bound id bs). lia.
Qed.

Lemma count_true_all (bs : list bool) :
  Forall (λ b, b = true) bs → count_true bs = Z.of_nat (length bs).
Proof.
  unfold count_true. induction 1 as [|b bs -> _ IH]; [done|].
  simpl. lia.
Qed.

(** X12. On the high-risk page the number of delinquent accounts and the
    number of high-utilization accounts (utilization above 80) are each
    between 0 and the number of customers identified, at most 20 rows are
    displayed and they are the first ones of the ranking; with a minimum
    utilization above 80 every identified customer counts as
    high-utilization. *)
Theorem high_risk_page_figures (df : DataFrame) (mb ms mu : Q) :
  let listed := high_risk_df df mb ms mu in
  (0 ≤ delinquent_count listed ≤ len listed)%Z
  ∧ (0 ≤ high_util_count listed ≤ len listed)%Z
  ∧ (len (displayed listed) ≤ 20)%Z
  ∧ rows (displayed listed) `prefix_of` rows listed
  ∧ ((80 < mu)%Q → high_util_count listed = len listed).
Proof.
  intros listed. unfold delinquent_count, high_util_count, len.
  split; [|split; [|split; [|split]]].
  - pose proof (count_true_bound
                  (gt0 <$> (delinquency_status <$> rows listed))) as H.
    by rewrite !length_fmap in H.
  - match goal with |- (_ ≤ count_true ?bs ≤ _)%Z =>
      pose proof (count_true_bound bs) as H end.
    by rewrite !length_fmap in H.
  - simpl. rewrite length_take. lia.
  - simpl. apply prefix_take.
  - intros Hmu.
    match goal with |- count_true ?bs = _ =>
      rewrite (count_true_all bs); [by rewrite !length_fmap|] end.
    apply Forall_fmap, Forall_fmap, Forall_forall. intros r Hr. simpl.
    unfold listed in Hr. rewrite high_risk_df_rows in Hr.
    apply list_elem_of_In, filter_In in Hr as [_ Hmask].
    unfold high_risk_mask in Hmask.
    apply andb_true_iff in Hmask as [_ Hu].
    destruct (utilization_rate r) as [u|]; simpl in *; [|done].
    apply Qlt_bool_true. apply Qle_bool_iff in Hu. lra.
Qed.

(** ** More on the strategy simulation *)

Lemma simulation_run_fields h df t ms lm tg :
  h !! df = Some t → empty t = false → has_column "income_band" t = true →
  let wc := working_copy ms tg t in
  ∃ b s,
    calculate_portfolio_metrics t = Ok b
    ∧ calculate_portfolio_metrics wc = Ok s
    ∧ create_strategy_simulation df ms lm tg h
      = (Ok (Some {|
           baseline_metrics := b;
           strategy_metrics := s;
           approval_change := change (approval_rate_of wc) (approval_rate_of t);
           balance_change :=
             pct_change
               (VFloat (series_sum (balance <$> rows (approved wc))))
               (VFloat (series_sum (balance <$> rows (approved t))));
           delinq_change :=
             change
               (VFloat (pct_positive (delinquency_status <$> rows (approved wc))))
               (VFloat (pct_positive (delinquency_status <$> rows (approved t))));
           score_change :=
             change
               (VFloat (series_mean (application_score <$> rows (approved wc))))
               (VFloat (series_mean (application_score <$> rows (approved t))));
           comparison_current :=
             [to_float (VInt (len (approved t)));
              in_millions (VFloat (series_sum (balance <$> rows (approved t))));
              pct_positive (delinquency_status <$> rows (approved t))];
           comparison_strategy :=
             [to_float (VInt (len (approved wc)));
              in_millions (VFloat (series_sum (balance <$> rows (approved wc))));
              pct_positive (delinquency_status <$> rows (approved wc))]
         |}), <[fresh (dom h) := wc]> h).
Proof.
  intros Hh He Hc wc. subst wc.
  destruct (metrics_fields t He)
    as (b & Hb & _ & Hb2 & Hb3 & Hb4 & _ & Hb6 & Hb7 & _).
  pose proof (working_copy_empty ms tg t) as He'. rewrite He in He'.
  destruct (metrics_fields _ He')
    as (s & Hs & _ & Hs2 & Hs3 & Hs4 & _ & Hs6 & Hs7 & _).
  exists b, s. split; [done|]. split; [done|].
  run_to_income_band Hh He Hb. rewrite Hc.
  unfold mret, M_ret.
  unfold loc_setitem_acceptance_decision, mbind, M_bind, deref, store.
  rewrite lookup_insert_eq, insert_insert_eq, lookup_insert_eq.
  rewrite loc_mask_rows. fold (working_copy ms tg t).
  rewrite Hs. unfold getitem.
  rewrite Hb2, Hb3, Hb4, Hb6, Hb7, Hs2, Hs3, Hs4, Hs6, Hs7.
  reflexivity.
Qed.

(** X13. The simulation has three outcomes and no other: it shows nothing
    and leaves the store as it is exactly for an empty table; it raises
    [KeyError('income_band')] exactly for a non-empty table without that
    column; in every other case it shows a result. It never raises a
    ZeroDivisionError or a KeyError for a metric. *)
Theorem simulation_outcomes h df t min_score limit_multiplier income_targets :
  h !! df = Some t →
  match
    create_strategy_simulation df min_score limit_multiplier income_targets h
  with
  | (Ok None, h') => empty t = true ∧ h' = h
  | (Raise e, _) =>
      e = KeyError "income_band"
      ∧ empty t = false ∧ has_column "income_band" t = false
  | (Ok (Some _), _) => empty t = false ∧ has_column "income_band" t = true
  end.
Proof.
  intros Hh. destruct (empty t) eqn:He.
  { by rewrite (simulation_empty h df t). }
  destruct (has_column "income_band" t) eqn:Hc.
  - destruct (simulation_run h df t min_score limit_multiplier income_targets
                Hh He Hc) as (sim & b & s & -> & _). done.
  - by rewrite (simulation_no_column h df t).
Qed.

Lemma simulation_outcomes_witness :
  match create_strategy_simulation 0 500 1 all_bands (store_of no_income_band)
  with
  | (Ok None, h') => empty no_income_band = true ∧ h' = store_of no_income_band
  | (Raise e, _) =>
      e = KeyError "income_band"
      ∧ empty no_income_band = false
      ∧ has_column "income_band" no_income_band = false
  | (Ok (Some _), _) =>
      empty no_income_band = false
      ∧ has_column "income_band" no_income_band = true
  end.
Proof.
  apply (simulation_outcomes (store_of no_income_band) 0 no_income_band
           500 1 all_bands).
  reflexivity.
Defined.

Lemma isin_mono tg1 tg2 c :
  (∀ b, b ∈ tg1 → b ∈ tg2) → isin tg1 c = true → isin tg2 c = true.
Proof.
  intros Hsub. destruct c as [b|]; simpl; [|done].
  rewrite !bool_decide_eq_true. apply Hsub.
Qed.

Lemma approved_working_copy_targets ms tg1 tg2 t :
  (∀ b, b ∈ tg1 → b ∈ tg2) →
  (len (approved (working_copy ms tg1 t))
   ≤ len (approved (working_copy ms tg2 t)))%Z.
Proof.
  intros Hsub. unfold len. apply inj_le. simpl.
  apply filter_length_le. intros r.
  destruct (eligible ms tg1 r) eqn:E1; [|by rewrite is_approved_declined].
  assert (eligible ms tg2 r = true) as ->; [|done].
  unfold eligible in *. apply andb_true_iff in E1 as [Hs Hb].
  apply andb_true_iff. split; [done|]. by apply (isin_mono tg1 tg2).
Qed.

(** X14. Deselecting income bands never adds approvals: for two policies
    with the same [min_score], if every target band of the first is a
    target band of the second, the first gives at most as many simulated
    approved customers; both runs report a count, or neither does. *)
Theorem fewer_target_bands_never_add_approvals
  h df t min_score limit_multiplier targets1 targets2 :
  h !! df = Some t → (∀ b, b ∈ targets1 → b ∈ targets2) →
  match
    simulated_approved
      (create_strategy_simulation df min_score limit_multiplier targets1 h),
    simulated_approved
      (create_strategy_simulation df min_score limit_multiplier targets2 h)
  with
  | Some n1, Some n2 => (n1 ≤ n2)%Z
  | None, None => empty t = true ∨ has_column "income_band" t = false
  | _, _ => False
  end.
Proof.
  intros Hh Hsub.
  destruct (empty t) eqn:He.
  { rewrite !(simulated_approved_none h df t) by auto. auto. }
  destruct (has_column "income_band" t) eqn:Hc.
  - rewrite !(simulated_approved_run h df t) by done.
    by apply approved_working_copy_targets.
  - rewrite !(simulated_approved_none h df t) by auto. auto.
Qed.

Lemma fewer_target_bands_never_add_approvals_witness :
  simulated_approved
    (create_strategy_simulation 0 500 1 ["High"] (store_of three_approved))
    = Some 1%Z
  ∧ simulated_approved
      (create_strategy_simulation 0 500 1 all_bands (store_of three_approved))
    = Some 2%Z
  ∧ (1 ≤ 2)%Z.
Proof.
  split; [reflexivity|]. split; [reflexivity|].
  apply (fewer_target_bands_never_add_approvals (store_of three_approved) 0
           three_approved 500 1 ["High"] all_bands); [reflexivity|].
  intros b Hb. apply list_elem_of_singleton in Hb as ->.
  unfold all_bands. by repeat constructor.
Defined.

Lemma no_target_no_approval ms (l : list Row) :
  List.filter is_approved
    ((λ r, if eligible ms [] r then r
           else set_acceptance_decision "Declined" r) <$> l) = [].
Proof.
  induction l as [|r l IH]; [done|].
  csimpl. unfold eligible at 1. simpl.
  assert (isin [] (income_band r) = false) as ->
    by by destruct (income_band r).
  rewrite andb_false_r, is_approved_declined. exact IH.
Qed.

(** X15. With no income band selected every row is declined in the
    working copy: the simulation still shows a result, with 0 simulated
    approved customers, an approval rate of 0 and a balance of 0, while the
    simulated delinquency rate and average score, and the changes shown for
    them, are NaN. *)
Theorem no_target_band_declines_everyone h df t min_score limit_multiplier :
  h !! df = Some t → empty t = false → has_column "income_band" t = true →
  ∃ sim h' rate,
    create_strategy_simulation df min_score limit_multiplier [] h
      = (Ok (Some sim), h')
    ∧ strategy_metrics sim !! "approved_customers" = Some (VInt 0)
    ∧ strategy_metrics sim !! "approval_rate" = Some (VFloat rate)
    ∧ equals_zero rate
    ∧ strategy_metrics sim !! "portfolio_balance" = Some (VFloat (Fin 0))
    ∧ strategy_metrics sim !! "delinquency_rate" = Some (VFloat NaN)
    ∧ strategy_metrics sim !! "avg_credit_score" = Some (VFloat NaN)
    ∧ delinq_change sim = NaN
    ∧ score_change sim = NaN.
Proof.
  intros Hh He Hc.
  destruct (simulation_run_fields h df t min_score limit_multiplier [] Hh He Hc)
    as (b & s & Hb & Hs & Hrun).
  pose proof (working_copy_empty min_score [] t) as He'. rewrite He in He'.
  destruct (metrics_all_fields _ He')
    as (s' & Hs' & _ & _ & Happ & Hrate & Hbal & _ & _ & Hscore & Hdel & _).
  rewrite Hs in Hs'. injection Hs' as <-.
  assert (Hnone : rows (approved (working_copy min_score [] t)) = [])
    by apply no_target_no_approval.
  assert (Hlen : len (approved (working_copy min_score [] t)) = 0%Z)
    by (unfold len; by rewrite Hnone).
  rewrite Hnone in *. rewrite Hlen in *.
  eexists _, _, _. split; [exact Hrun|]. simpl.
  split; [exact Happ|]. split; [exact Hrate|].
  split.
  { eexists. split; [reflexivity|].
    unfold Qdiv. rewrite Qmult_0_l. by rewrite Qmult_0_l. }
  split; [exact Hbal|]. split; [exact Hdel|]. split; [exact Hscore|].
  done.
Qed.

Lemma no_target_band_declines_everyone_witness :
  ∃ sim h' rate,
    create_strategy_simulation 0 500 1 [] (store_of three_approved)
      = (Ok (Some sim), h')
    ∧ strategy_metrics sim !! "approved_customers" = Some (VInt 0)
    ∧ strategy_metrics sim !! "approval_rate" = Some (VFloat rate)
    ∧ equals_zero rate
    ∧ strategy_metrics sim !! "portfolio_balance" = Some (VFloat (Fin 0))
    ∧ strategy_metrics sim !! "delinquency_rate" = Some (VFloat NaN)
    ∧ strategy_metrics sim !! "avg_credit_score" = Some (VFloat NaN)
    ∧ delinq_change sim = NaN
    ∧ score_change sim = NaN.
Proof.
  apply (no_target_band_declines_everyone (store_of three_approved) 0
           three_approved 500 1); reflexivity.
Defined.

Lemma pct_ratio_mono (a a' n : Z) :
  (a' ≤ a)%Z → (0 < n)%Z →
  (inject_Z a' / inject_Z n * 100 + - (inject_Z a / inject_Z n * 100) <= 0)%Q.
Proof.
  intros Ha Hn.
  assert (0 < inject_Z n)%Q as Hn'.
  { change 0%Q with (inject_Z 0). rewrite <- Zlt_Qlt. lia. }
  assert (inject_Z a' <= inject_Z a)%Q as Haa by (rewrite <- Zle_Qle; lia).
  assert (inject_Z a' / inject_Z n <= inject_Z a / inject_Z n)%Q.
  { unfold Qdiv. apply Qmult_le_compat_r; [done|].
    apply Qinv_le_0_compat. lra. }
  lra.
Qed.

Lemma len_working_copy ms tg t : len (working_copy ms tg t) = len t.
Proof. unfold len. simpl. by rewrite length_fmap. Qed.

(** X16. Whenever the simulation shows a result, the change of the
    approval rate it reports is a finite number that is at most 0, and the
    baseline and the simulated metrics have the same [total_customers]:
    a policy removes approvals, never rows. *)
Theorem approval_rate_never_rises h df t min_score limit_multiplier income_targets :
  h !! df = Some t →
  match
    outcome
      (create_strategy_simulation df min_score limit_multiplier income_targets h)
  with
  | Some sim =>
      at_most_zero (approval_change sim)
      ∧ baseline_metrics sim !! "total_customers" = Some (VInt (len t))
      ∧ strategy_metrics sim !! "total_customers" = Some (VInt (len t))
  | None => empty t = true ∨ has_column "income_band" t = false
  end.
Proof.
  intros Hh.
  destruct (empty t) eqn:He.
  { rewrite (outcome_none h df t) by auto. auto. }
  destruct (has_column "income_band" t) eqn:Hc.
  2: { rewrite (outcome_none h df t) by auto. auto. }
  destruct (simulation_run_fields h df t min_score limit_multiplier
              income_targets Hh He Hc) as (b & s & Hb & Hs & Hrun).
  pose proof (working_copy_empty min_score income_targets t) as He'.
  rewrite He in He'.
  destruct (metrics_all_fields t He) as (b' & Hb' & _ & Htot & _).
  destruct (metrics_all_fields _ He') as (s' & Hs' & _ & Hstot & _).
  rewrite Hb in Hb'. rewrite Hs in Hs'. simplify_eq.
  unfold outcome. rewrite Hrun. simpl.
  split; [|split; [done|by rewrite <- (len_working_copy min_score income_targets)]].
  unfold approval_rate_of, change, np_sub. simpl.
  rewrite len_working_copy.
  eexists. split; [reflexivity|].
  apply pct_ratio_mono; [apply approved_working_copy_le|].
  by apply empty_false_len.
Qed.

Lemma approval_rate_never_rises_witness :
  match
    outcome (create_strategy_simulation 0 500 1 all_bands (store_of three_approved))
  with
  | Some sim =>
      at_most_zero (approval_change sim)
      ∧ baseline_metrics sim !! "total_customers"
        = Some (VInt (len three_approved))
      ∧ strategy_metrics sim !! "total_customers"
        = Some (VInt (len three_approved))
  | None =>
      empty three_approved = true
      ∨ has_column "income_band" three_approved = false
  end.
Proof.
  apply (approval_rate_never_rises (store_of three_approved) 0 three_approved
           500 1 all_bands).
  reflexivity.
Defined.

Lemma eligible_set_decision ms tg v r :
  eligible ms tg (set_acceptance_decision v r) = eligible ms tg r.
Proof. reflexivity. Qed.

Lemma working_copy_idempotent ms tg t :
  working_copy ms tg (working_copy ms tg t) = working_copy ms tg t.
Proof.
  unfold working_copy. simpl. f_equal.
  rewrite <- list_fmap_compose. apply list_fmap_ext.
  intros i r _. simpl.
  destruct (eligible ms tg r) eqn:E; [by rewrite E|].
  by rewrite eligible_set_decision, E.
Qed.

(** X17. The policy is idempotent: running the simulation a second time,
    with the same [min_score] and target bands, on the working copy that
    the first run left in the store changes nothing any more. The second
    run's baseline and simulated metrics both equal the first run's
    simulated metrics. *)
Theorem repeating_the_policy_changes_nothing
  h df t min_score limit_multiplier limit_multiplier' income_targets :
  h !! df = Some t → empty t = false → has_column "income_band" t = true →
  ∃ sim1 h1 sim2 h2,
    create_strategy_simulation df min_score limit_multiplier income_targets h
      = (Ok (Some sim1), h1)
    ∧ create_strategy_simulation (fresh (dom h)) min_score limit_multiplier'
        income_targets h1 = (Ok (Some sim2), h2)
    ∧ baseline_metrics sim2 = strategy_metrics sim1
    ∧ strategy_metrics sim2 = strategy_metrics sim1.
Proof.
  intros Hh He Hc.
  destruct (simulation_run_fields h df t min_score limit_multiplier
              income_targets Hh He Hc) as (b & s & Hb & Hs & Hrun).
  set (wc := working_copy min_score income_targets t) in *.
  set (h1 := <[fresh (dom h) := wc]> h) in *.
  assert (Hh1 : h1 !! fresh (dom h) = Some wc) by apply lookup_insert_eq.
  assert (He1 : empty wc = false).
  { unfold wc. by rewrite working_copy_empty. }
  assert (Hc1 : has_column "income_band" wc = true) by exact Hc.
  destruct (simulation_run_fields h1 (fresh (dom h)) wc min_score
              limit_multiplier' income_targets Hh1 He1 Hc1)
    as (b2 & s2 & Hb2 & Hs2 & Hrun2).
  unfold wc in Hs2 at 1. rewrite working_copy_idempotent in Hs2. fold wc in Hs2.
  rewrite Hs in Hb2, Hs2. simplify_eq.
  eexists _, _, _, _. split; [exact Hrun|]. split; [exact Hrun2|]. done.
Qed.

Lemma repeating_the_policy_changes_nothing_witness :
  ∃ sim1 h1 sim2 h2,
    create_strategy_simulation 0 500 1 all_bands (store_of three_approved)
      = (Ok (Some sim1), h1)
    ∧ create_strategy_simulation (fresh (dom (store_of three_approved))) 500 2
        all_bands h1 = (Ok (Some sim2), h2)
    ∧ baseline_metrics sim2 = strategy_metrics sim1
    ∧ strategy_metrics sim2 = strategy_metrics sim1.
Proof.
  apply (repeating_the_policy_changes_nothing (store_of three_approved) 0
           three_approved 500 1 2 all_bands); reflexivity.
Defined.





(** ** The overview charts *)

(** X19. The composition pie gets the two non-negative numbers approved
    and declined, which add up to [total_customers]; on the metrics of an
    empty table (the empty mapping) it raises
    [KeyError('approved_customers')]. *)
Theorem composition_pie_values (t : DataFrame) :
  calculate_portfolio_metrics t ≫= composition_values
  = (if empty t then Raise (KeyError "approved_customers")
     else Ok [VInt (len (approved t)); VInt (len t - len (approved t))])
  ∧ (0 ≤ len (approved t))%Z
  ∧ (0 ≤ len t - len (approved t))%Z
  ∧ (len (approved t) + (len t - len (approved t)) = len t)%Z.
Proof.
  pose proof (len_select_le is_approved t) as Ha. fold (approved t) in Ha.
  split; [|lia].
  destruct (empty t) eqn:He.
  - unfold calculate_portfolio_metrics. by rewrite He.
  - destruct (metrics_all_fields t He) as (m & -> & _ & Htot & Happ & _).
    unfold composition_values, getitem. simpl. by rewrite Happ, Htot.
Qed.

Lemma string_lt_trans a b c : string_lt a b → string_lt b c → string_lt a c.
Proof.
  unfold string_lt. intros Hab Hbc.
  apply OrderedTypeEx.String_as_OT.cmp_lt.
  apply OrderedTypeEx.String_as_OT.lt_trans with b;
    by apply OrderedTypeEx.String_as_OT.cmp_lt.
Qed.

Lemma string_lt_irrefl a : ¬ string_lt a a.
Proof.
  unfold string_lt. intros H.
  apply OrderedTypeEx.String_as_OT.cmp_lt in H.
  by apply OrderedTypeEx.String_as_OT.lt_not_eq in H.
Qed.

Lemma string_compare_Gt a b : String.compare a b = Gt → string_lt b a.
Proof.
  unfold string_lt. intros H. rewrite String.compare_antisym, H. done.
Qed.

Lemma add_to_group_keys k v groups k' :
  k' ∈ fst <$> add_to_group k v groups ↔ k' = k ∨ k' ∈ fst <$> groups.
Proof.
  induction groups as [|[k0 s] groups IH]; csimpl.
  - rewrite list_elem_of_singleton. split; [by left|intros [?|H]; [done|]].
    by apply elem_of_nil in H.
  - destruct (String.compare k k0) eqn:E; csimpl.
    + apply String.compare_eq_iff in E as ->.
      split; [by right | intros [->|?]; [apply list_elem_of_here|done]].
    + apply elem_of_cons.
    + rewrite !elem_of_cons, IH. tauto.
Qed.

Lemma add_to_group_sorted k v groups :
  StronglySorted string_lt (fst <$> groups) →
  StronglySorted string_lt (fst <$> add_to_group k v groups).
Proof.
  induction groups as [|[k0 s] groups IH]; csimpl; intros Hs.
  - repeat constructor.
  - apply StronglySorted_inv in Hs as [Hs Hall].
    destruct (String.compare k k0) eqn:E; csimpl.
    + by constructor.
    + constructor; [by constructor|].
      constructor; [done|].
      eapply Forall_impl; [exact Hall|]. intros y Hy. simpl in *.
      by apply string_lt_trans with k0.
    + constructor; [by apply IH|].
      apply Forall_forall. intros y Hy.
      apply add_to_group_keys in Hy as [->|Hy]; [by apply string_compare_Gt|].
      by apply (proj1 (Forall_forall _ _) Hall).
Qed.

(** The sum kept for the key [k']. *)
Lemma add_to_group_entry k v groups k' :
  (Qsum (snd <$> List.filter (λ e, String.eqb e.1 k') (add_to_group k v groups))
   == Qsum (snd <$> List.filter (λ e, String.eqb e.1 k') groups)
      + (if String.eqb k k' then v else 0))%Q.
Proof.
  induction groups as [|[k0 s] groups IH]; csimpl.
  - destruct (String.eqb k k'); csimpl; lra.
  - destruct (String.compare k k0) eqn:E; csimpl.
    + apply String.compare_eq_iff in E as ->.
      destruct (String.eqb k0 k'); csimpl; lra.
    + destruct (String.eqb k k'), (String.eqb k0 k'); csimpl; lra.
    + destruct (String.eqb k0 k'); csimpl; rewrite IH; lra.
Qed.

Lemma sorted_group_unique (groups : list (string * Q)) k s :
  StronglySorted string_lt (fst <$> groups) → (k, s) ∈ groups →
  (Qsum (snd <$> List.filter (λ e, String.eqb e.1 k) groups) == s)%Q.
Proof.
  induction groups as [|[k0 s0] groups IH]; csimpl; intros Hs Hin.
  - by apply elem_of_nil in Hin.
  - apply StronglySorted_inv in Hs as [Hs Hall].
    assert (Hrest : ∀ y m, (y, m) ∈ groups → string_lt k0 y).
    { intros y m Hy. apply (proj1 (Forall_forall _ _) Hall).
      apply list_elem_of_fmap. by exists (y, m). }
    apply elem_of_cons in Hin as [[= <- <-]|Hin].
    + rewrite String.eqb_refl. csimpl.
      assert (List.filter (λ e, String.eqb e.1 k) groups = []) as ->;
        [|csimpl; lra].
      clear IH Hs Hall. induction groups as [|[y m] groups IH']; [done|].
      csimpl. assert (String.eqb y k = false) as ->.
      { apply String.eqb_neq. intros ->.
        by apply (string_lt_irrefl k), (Hrest k m), list_elem_of_here. }
      apply IH'. intros y' m' H'. apply (Hrest y' m').
      by apply list_elem_of_further.
    + assert (String.eqb k0 k = false) as ->.
      { apply String.eqb_neq. intros ->.
        by apply (string_lt_irrefl k), (Hrest k s). }
      by apply IH.
Qed.

Lemma groupby_sum_invariants (l : list Row) (acc : list (string * Q)) :
  let step := λ groups r,
    match income_band r with
    | Some k => add_to_group k (default 0%Q (balance r)) groups
    | None => groups
    end in
  let out := foldl step acc l in
  (StronglySorted string_lt (fst <$> acc) →
   StronglySorted string_lt (fst <$> out))
  ∧ (∀ k, k ∈ fst <$> out
          ↔ k ∈ fst <$> acc ∨ ∃ r, r ∈ l ∧ income_band r = Some k)
  ∧ ∀ k, (Qsum (snd <$> List.filter (λ e, String.eqb e.1 k) out)
          == Qsum (snd <$> List.filter (λ e, String.eqb e.1 k) acc)
             + Qsum (balances_of_band k l))%Q.
Proof.
  revert acc. induction l as [|r l IH]; intros acc; csimpl.
  - split; [done|]. split.
    + intros k. split; [by left|intros [?|(r & Hr & _)]; [done|]].
      by apply elem_of_nil in Hr.
    + intros k. unfold balances_of_band. csimpl. lra.
  - destruct (IH (match income_band r with
                  | Some k => add_to_group k (default 0%Q (balance r)) acc
                  | None => acc
                  end)) as (Hs & Hk & Hsum).
    split; [|split].
    + intros Hacc. apply Hs. destruct (income_band r); [|done].
      by apply add_to_group_sorted.
    + intros k. rewrite Hk. destruct (income_band r) as [kr|] eqn:Er.
      * rewrite add_to_group_keys. split.
        -- intros [[->|?]|(r' & Hr' & Hb)]; [right|by left|right].
           ++ exists r. split; [apply list_elem_of_here|done].
           ++ exists r'. split; [by apply list_elem_of_further|done].
        -- intros [?|(r' & Hr' & Hb)]; [by left; right|].
           apply elem_of_cons in Hr' as [->|Hr'].
           ++ left. left. congruence.
           ++ right. by exists r'.
      * split.
        -- intros [?|(r' & Hr' & Hb)]; [by left|right].
           exists r'. split; [by apply list_elem_of_further|done].
        -- intros [?|(r' & Hr' & Hb)]; [by left|].
           apply elem_of_cons in Hr' as [->|Hr']; [congruence|].
           right. by exists r'.
    + intros k. rewrite Hsum. unfold balances_of_band. csimpl.
      destruct (income_band r) as [kr|] eqn:Er.
      * rewrite add_to_group_entry.
        destruct (String.eqb kr k) eqn:Ek.
        -- apply String.eqb_eq in Ek as ->.
           rewrite bool_decide_eq_true_2 by done. csimpl.
           destruct (balance r); csimpl; unfold notna, Qsum; lra.
        -- apply String.eqb_neq in Ek.
           rewrite bool_decide_eq_false_2 by congruence. lra.
      * rewrite bool_decide_eq_false_2 by done. lra.
Qed.

(** X20. The balance-by-income chart has data exactly when the table has
    an [income_band] column; its lines are then in strictly ascending
    lexical order of the band (each band once), and a band has a line iff
    some approved row carries it: rows without a band and declined rows
    give no line. *)
Theorem balance_by_income_lines (df : DataFrame) :
  match balance_by_income df with
  | None => has_column "income_band" df = false
  | Some groups =>
      has_column "income_band" df = true
      ∧ StronglySorted string_lt (fst <$> groups)
      ∧ ∀ k, k ∈ fst <$> groups
             ↔ ∃ r, r ∈ rows (approved df) ∧ income_band r = Some k
  end.
Proof.
  unfold balance_by_income.
  change (has_column "income_band" (approved df))
    with (has_column "income_band" df).
  destruct (has_column "income_band" df); [|done].
  destruct (groupby_sum_invariants (rows (approved df)) []) as (Hs & Hk & _).
  split; [done|]. split; [apply Hs; constructor|].
  intros k. unfold groupby_sum. rewrite Hk. split.
  - intros [H|H]; [by apply elem_of_nil in H|done].
  - by right.
Qed.

Lemma add_to_group_total k v groups :
  (Qsum (snd <$> add_to_group k v groups) == Qsum (snd <$> groups) + v)%Q.
Proof.
  induction groups as [|[k0 s] groups IH]; csimpl; [lra|].
  destruct (String.compare k k0); csimpl; [lra|lra|]. rewrite IH. lra.
Qed.

Lemma groupby_sum_total (l : list Row) (acc : list (string * Q)) :
  (Qsum (snd <$> foldl (λ groups r,
            match income_band r with
            | Some k => add_to_group k (default 0%Q (balance r)) groups
            | None => groups
            end) acc l)
   == Qsum (snd <$> acc) + Qsum (notna (balance <$> List.filter has_band l)))%Q.
Proof.
  revert acc. induction l as [|r l IH]; intros acc; csimpl; [lra|].
  rewrite IH. unfold has_band at 2.
  destruct (income_band r); [|lra].
  rewrite add_to_group_total. csimpl.
  destruct (balance r); csimpl; unfold notna, Qsum; lra.
Qed.

(** X21. In the balance-by-income chart, in exact arithmetic, the value
    of a band is the sum of the balances of the approved rows of that
    band (a missing balance adds nothing), and the values add up to the
    balance of the approved rows that have a band. *)
Theorem balance_by_income_sums (df : DataFrame) (groups : list (string * Q)) :
  balance_by_income df = Some groups →
  (∀ k s, (k, s) ∈ groups →
          (s == Qsum (balances_of_band k (rows (approved df))))%Q)
  ∧ (Qsum (snd <$> groups)
     == Qsum (notna (balance <$> List.filter has_band (rows (approved df)))))%Q.
Proof.
  unfold balance_by_income.
  destruct (has_column "income_band" (approved df)); [|done].
  intros [= <-].
  destruct (groupby_sum_invariants (rows (approved df)) []) as (Hs & _ & Hsum).
  split.
  - intros k s Hin.
    rewrite <- (sorted_group_unique _ k s (Hs (SSorted_nil _)) Hin).
    unfold groupby_sum. rewrite Hsum. csimpl. lra.
  - unfold groupby_sum. rewrite groupby_sum_total. csimpl. lra.
Qed.

Lemma balance_by_income_sums_witness :
  (∀ k s, (k, s) ∈ [("High", 0%Q); ("Low", 50%Q); ("Medium", 500%Q)] →
          (s == Qsum (balances_of_band k (rows (approved mixed_bands))))%Q)
  ∧ (Qsum (snd <$> [("High", 0%Q); ("Low", 50%Q); ("Medium", 500%Q)])
     == Qsum (notna (balance <$> List.filter has_band
                                   (rows (approved mixed_bands)))))%Q.
Proof.
  apply (balance_by_income_sums mixed_bands). reflexivity.
Defined.

(** * The data-quality report *)

Lemma validate_without_table_info db_type read t :
  get_table_info db_type read t = None →
  validate_data_quality db_type read t
  = <["numeric_ranges" :=
        RDict match read (range_query t) with
              | Some (ranges :: _) => ranges
              | _ => ∅
              end]>
      (<["null_counts" := RDict (foldl (add_null_count read t) ∅ key_columns)]>
         {["row_count" := RValue (SInt 0)]}).
Proof.
  intros Hinfo. unfold validate_data_quality. by rewrite Hinfo.
Qed.

(** X22. When either query behind [get_table_info] fails (the row count or
    the column listing), [validate_data_quality] does not fail: it reports
    a [row_count] of 0, whatever the table holds, makes no duplicate check,
    and still fills [null_counts] and [numeric_ranges]. *)
Theorem failed_table_info_reads_as_zero_rows db_type read table_name :
  read (count_query table_name) = None
  ∨ read (columns_query db_type table_name) = None →
  ∃ null_counts numeric_ranges,
    validate_data_quality db_type read table_name !! "row_count"
      = Some (RValue (SInt 0))
    ∧ validate_data_quality db_type read table_name !! "duplicate_customers"
      = None
    ∧ validate_data_quality db_type read table_name !! "null_counts"
      = Some (RDict null_counts)
    ∧ validate_data_quality db_type read table_name !! "numeric_ranges"
      = Some (RDict numeric_ranges).
Proof.
  intros Hfail.
  assert (Hinfo : get_table_info db_type read table_name = None).
  { unfold get_table_info, execute_query. destruct Hfail as [->| ->]; [done|].
    destruct (read (count_query table_name)) as [counted|]; [|done]. simpl.
    by destruct (first_value "row_count" counted). }
  rewrite (validate_without_table_info _ _ _ Hinfo).
  eexists _, _. repeat split; reflexivity.
Qed.

Lemma failed_table_info_reads_as_zero_rows_witness :
  ∃ null_counts numeric_ranges,
    validate_data_quality "postgresql" db_without_column_listing
      "credit_portfolio" !! "row_count" = Some (RValue (SInt 0))
    ∧ validate_data_quality "postgresql" db_without_column_listing
        "credit_portfolio" !! "duplicate_customers" = None
    ∧ validate_data_quality "postgresql" db_without_column_listing
        "credit_portfolio" !! "null_counts" = Some (RDict null_counts)
    ∧ validate_data_quality "postgresql" db_without_column_listing
        "credit_portfolio" !! "numeric_ranges" = Some (RDict numeric_ranges).
Proof.
  apply (failed_table_info_reads_as_zero_rows "postgresql"
           db_without_column_listing "credit_portfolio").
  right. reflexivity.
Defined.

(** X23. On a database that rejects every query (a missing table, a lost
    connection) the report is not the empty mapping and no exception
    escapes: it is exactly [row_count] 0 with empty [null_counts] and empty
    [numeric_ranges]. *)
Theorem report_of_unreachable_table db_type read table_name :
  (∀ query, read query = None) →
  validate_data_quality db_type read table_name
  = <["numeric_ranges" := RDict ∅]>
      (<["null_counts" := RDict ∅]> {["row_count" := RValue (SInt 0)]}).
Proof.
  intros Hnone.
  rewrite validate_without_table_info.
  - rewrite (Hnone (range_query table_name)).
    unfold key_columns, add_null_count, execute_query.
    cbn [foldl]. by rewrite !Hnone.
  - unfold get_table_info, execute_query.
    by rewrite (Hnone (count_query table_name)).
Qed.

Lemma report_of_unreachable_table_witness :
  validate_data_quality "sqlite" unreachable_db "credit_portfolio"
  = <["numeric_ranges" := RDict ∅]>
      (<["null_counts" := RDict ∅]> {["row_count" := RValue (SInt 0)]}).
Proof.
  apply (report_of_unreachable_table "sqlite" unreachable_db "credit_portfolio").
  reflexivity.
Defined.

(** X24. The report is the empty mapping in exactly one case: the table
    information lists a [customer_id] column and the duplicates query
    fails. A failure of that one query discards the whole report, while a
    failure of any other query only leaves its entry out. *)
Theorem report_is_empty_iff_duplicates_query_fails db_type read table_name :
  validate_data_quality db_type read table_name = ∅
  ↔ ∃ info,
      get_table_info db_type read table_name = Some info
      ∧ lists_customer_id (ti_columns info) = true
      ∧ read (duplicate_query table_name) = None.
Proof.
  unfold validate_data_quality, execute_query.
  destruct (get_table_info db_type read table_name) as [info|]; simpl.
  - destruct (lists_customer_id (ti_columns info)) eqn:Hc.
    + destruct (read (duplicate_query table_name)) as [dups|]; simpl.
      * split; [intros H|by intros (? & _ & _ & ?)].
        by apply insert_non_empty in H.
      * split; [by exists info|done].
    + split; [intros H|].
      * by apply insert_non_empty in H.
      * intros (? & [= <-] & ? & _). congruence.
  - split; [intros H|by intros (? & ? & _)].
    by apply insert_non_empty in H.
Qed.

Lemma report_is_empty_iff_duplicates_query_fails_witness :
  validate_data_quality "sqlite" db_rejecting_duplicates "credit_portfolio" = ∅.
Proof.
  apply (report_is_empty_iff_duplicates_query_fails "sqlite"
           db_rejecting_duplicates "credit_portfolio").
  eexists. split; [reflexivity|]. split; reflexivity.
Defined.

Lemma add_null_count_lookup read t nc c col :
  add_null_count read t nc c !! col
  = if decide (c = col)
    then match read (null_query t c) ≫= first_value "null_count" with
         | Some v => Some v
         | None => nc !! col
         end
    else nc !! col.
Proof.
  unfold add_null_count, execute_query.
  destruct (read (null_query t c) ≫= first_value "null_count") as [v|].
  - by rewrite lookup_insert.
  - by destruct (decide (c = col)).
Qed.

Lemma null_counts_lookup read t (cols : list string) nc col :
  foldl (add_null_count read t) nc cols !! col
  = if bool_decide (col ∈ cols)
    then match read (null_query t col) ≫= first_value "null_count" with
         | Some v => Some v
         | None => nc !! col
         end
    else nc !! col.
Proof.
  revert nc. induction cols as [|c cols IH]; intros nc; [done|].
  cbn [foldl]. rewrite IH, add_null_count_lookup.
  destruct (decide (c = col)) as [->|Hne].
  - rewrite (bool_decide_eq_true_2 (col ∈ col :: cols))
      by apply list_elem_of_here.
    destruct (read (null_query t col) ≫= first_value "null_count");
      by destruct (bool_decide (col ∈ cols)).
  - destruct (bool_decide (col ∈ cols)) eqn:Hin.
    + apply bool_decide_eq_true in Hin.
      by rewrite bool_decide_eq_true_2 by by apply list_elem_of_further.
    + apply bool_decide_eq_false in Hin.
      rewrite bool_decide_eq_false_2; [done|].
      intros [?|?]%elem_of_cons; congruence.
Qed.

(** X25. Unless the report is the empty mapping, its [null_counts] has an
    entry for a column iff the column is one of [customer_id],
    [application_score], [credit_limit], [balance] and the null-count
    query for it was answered; the entry is the answer. A query that
    fails leaves its column out without affecting the others. *)
Theorem null_counts_hold_the_answered_queries db_type read table_name :
  validate_data_quality db_type read table_name = ∅
  ∨ ∃ null_counts,
      validate_data_quality db_type read table_name !! "null_counts"
        = Some (RDict null_counts)
      ∧ ∀ col,
          null_counts !! col
          = if bool_decide (col ∈ key_columns)
            then read (null_query table_name col) ≫= first_value "null_count"
            else None.
Proof.
  assert (Hnc : ∀ col,
            foldl (add_null_count read table_name) ∅ key_columns !! col
            = if bool_decide (col ∈ key_columns)
              then read (null_query table_name col) ≫= first_value "null_count"
              else None).
  { intros col. rewrite null_counts_lookup, lookup_empty.
    destruct (bool_decide _); [|done].
    by destruct (read (null_query table_name col) ≫= first_value "null_count"). }
  unfold validate_data_quality.
  destruct (if lists_customer_id _ then _ else _) as [results|]; [right|by left].
  eexists. split; [|exact Hnc].
  by rewrite lookup_insert_ne, lookup_insert_eq.
Qed.

(** The database that answers one null-count query only. *)
Example null_counts_of_partial_answers :
  validate_data_quality "postgresql" db_without_column_listing
    "credit_portfolio" !! "null_counts"
  = Some (RDict {[ "balance" := SInt 1 ]}).
Proof. reflexivity. Qed.

(** * The trend insights *)

Lemma iloc_first {A} (x : A) (l : list A) : iloc (x :: l) 0 = At x.
Proof.
  unfold iloc. cbn [length].
  replace ((0 <=? 0) && (0 <? Z.of_nat (S (length l))))%Z with true; [done|].
  symmetry. apply andb_true_iff. split; [done|apply Z.ltb_lt; lia].
Qed.

Lemma iloc_last {A} (x : A) (l : list A) :
  iloc (l ++ [x]) (-1) = At x.
Proof.
  unfold iloc. rewrite length_app. cbn [length].
  change (-1 <? 0)%Z with true. cbv iota.
  replace (Z.of_nat (length l + 1) + -1)%Z with (Z.of_nat (length l)) by lia.
  replace ((0 <=? Z.of_nat (length l))
           && (Z.of_nat (length l) <? Z.of_nat (length l + 1)))%Z with true.
  - rewrite Nat2Z.id. by rewrite list_lookup_middle.
  - symmetry. apply andb_true_iff.
    split; [apply Z.leb_le; lia | apply Z.ltb_lt; lia].
Qed.

Lemma iloc_nil {A} (i : Z) : iloc (@nil A) i = IndexError.
Proof.
  unfold iloc. destruct (_ && _); [|done]. by rewrite lookup_nil.
Qed.

(** X26. The trend insights need at least one month: on a trend table
    without rows the first read [iloc[0]] raises an IndexError; on any
    other table they are computed from the first and the last month, the
    delinquency change as last - first and the growth as
    (last - first) / first * 100, with no guard for a first balance of 0. *)
Theorem trend_insights_need_a_month (trends_df : list TrendRow) :
  match trends_df with
  | [] => trend_insights trends_df = IndexError
  | first :: _ =>
      ∃ last,
        List.last trends_df first = last
        ∧ trend_insights trends_df
          = At {| delinquency_trend :=
                    (cell_float (delinquency_rate last),
                     np_sub (cell_float (delinquency_rate last))
                            (cell_float (delinquency_rate first)));
                  portfolio_growth :=
                    (np_truediv (cell_float (total_balance last)) (Fin 1000000),
                     np_mul
                       (np_truediv
                          (np_sub (cell_float (total_balance last))
                                  (cell_float (total_balance first)))
                          (cell_float (total_balance first)))
                       (Fin 100));
                  avg_customers := series_mean (total_customers <$> trends_df) |}
  end.
Proof.
  destruct trends_df as [|first rest].
  - unfold trend_insights. by rewrite fmap_nil, iloc_nil.
  - destruct (exists_last (l := first :: rest)) as (init & last & Hsplit);
      [done|].
    exists last. split; [by rewrite Hsplit, last_last|].
    unfold trend_insights.
    rewrite !fmap_cons, !iloc_first.
    rewrite <- !fmap_cons, Hsplit, !fmap_app. csimpl.
    by rewrite !iloc_last.
Qed.

(** With a single month the first and the last month coincide: both
    changes are 0. *)
Example trend_insights_of_one_month :
  ∃ zero millions growth,
    trend_insights one_month
    = At {| delinquency_trend := (Fin 5, Fin zero);
            portfolio_growth := (Fin millions, Fin growth);
            avg_customers := Fin 200 |}
    ∧ (zero == 0)%Q ∧ (millions == 1)%Q ∧ (growth == 0)%Q.
Proof. eexists _, _, _. split; [reflexivity|]. repeat split; reflexivity. Qed.
